(** * build.py: the installer build script of EDMarketConnector

    A shallow embedding of [src/build.py] and the properties of its three
    functions, [system_check], [generate_data_files] and
    [windows_installer_display_lang].

    The script is glue code around the operating system, so the embedding
    is a small state-and-exception monad over a model of the file system.
    Every call that touches the outside world leaves an event in a trace,
    which is what the theorems about "no deletion is attempted" or "no copy
    is performed" talk about.

    Modelling conventions.
    - A Python [str] is a [string]; one [ascii] stands for one code point
      in the range 0..255.  Code points above 255 are outside the model.
    - A Python [int] is a [Z].
    - The interpreter runs with assertions enabled (no [-O] switch).
    - Reading or copying a file that does not exist, copying a file onto
      itself and listing what is not a directory raise, as in Python.
      Failures that depend on permissions, locks, disk space or the
      encoding of a file are outside the model: writing a file and
      removing a directory tree always go through, and a file that is
      there can be read.  So is opening a path that names a directory
      as if it were a file.
    - A file or directory is known by one spelling of its path: the keys
      of the world and the paths the script works with are compared as
      strings.  Two spellings of one place ([.] and [..] components, a
      trailing separator, letter case, the absolute form of a relative
      path) are not identified.  Statements that depend on which files
      a path reaches say so in a hypothesis on the path.
    - The module globals [SDKPATH] and [PLUGINS] are bound by the body of
      the script only.  [generate_data_files] is modelled as the script
      calls it, after [PLUGINS] is bound.  The script never calls
      [windows_installer_display_lang]; whether [SDKPATH] is bound when
      somebody else calls it is part of the host ([sdkpath]).
    - The programs behind [os.system] are unknown: each call answers
      with an exit status and may change the world in any way.
    - No path and no command line holds the character NUL, which the
      functions of [os] refuse. *)

From Stdlib Require Import ZArith Ascii String.
From Stdlib Require Import DecimalString DecimalPos DecimalZ.
From stdpp Require Import gmap strings list.

Local Open Scope Z_scope.

(** ** Characters and strings *)

Definition code (c : ascii) : N := N_of_ascii c.

(** [str.isspace] on the code points below 256, which is the class the
    regular expression escape [\s] matches on a [str] pattern. *)
Definition isspace (c : ascii) : bool :=
  let n := code c in
  ((9 <=? n) && (n <=? 13) || (28 <=? n) && (n <=? 32)
   || (n =? 133) || (n =? 160))%N.

(** The white space that [int()] skips around a literal: the C locale
    white space, and the two non-ASCII code points below 256 that are
    Unicode white space.  The separators 28..31 are not skipped. *)
Definition int_space (c : ascii) : bool :=
  let n := code c in
  ((9 <=? n) && (n <=? 13) || (n =? 32) || (n =? 133) || (n =? 160))%N.

Definition digit_value (c : ascii) : option Z :=
  let n := code c in
  if ((48 <=? n) && (n <=? 57))%N then Some (Z.of_N n - 48) else None.

Definition is_digit (c : ascii) : bool :=
  match digit_value c with Some _ => true | None => false end.

Fixpoint startswith (p s : string) : bool :=
  match p, s with
  | EmptyString, _ => true
  | String a p', String b s' => Ascii.eqb a b && startswith p' s'
  | String _ _, EmptyString => false
  end.

Fixpoint drop_str (n : nat) (s : string) : string :=
  match n, s with
  | O, _ => s
  | S n', String _ s' => drop_str n' s'
  | S _, EmptyString => EmptyString
  end.

Fixpoint take_str (n : nat) (s : string) : string :=
  match n, s with
  | S n', String c s' => String c (take_str n' s')
  | _, _ => EmptyString
  end.

(** [s.endswith(suffix)] *)
Definition endswith (suffix s : string) : bool :=
  (String.length suffix <=? String.length s)%nat
  && String.eqb (drop_str (String.length s - String.length suffix) s) suffix.

Fixpoint last_char (s : string) : option ascii :=
  match s with
  | EmptyString => None
  | String c EmptyString => Some c
  | String _ s' => last_char s'
  end.

(** [s.split(sep)] for a one character separator: the pieces between the
    separators, never an empty list. *)
Fixpoint split (sep : ascii) (s : string) : list string :=
  match s with
  | EmptyString => [EmptyString]
  | String c s' =>
      if Ascii.eqb c sep then EmptyString :: split sep s'
      else match split sep s' with
           | piece :: rest => String c piece :: rest
           | [] => [String c EmptyString]
           end
  end.

(** [str(n)] for an [int]. *)
Definition str_of_int (n : Z) : string :=
  NilZero.string_of_int (Z.to_int n).

(** ** Paths *)

Definition is_sep (c : ascii) : bool :=
  Ascii.eqb c "\"%char || Ascii.eqb c "/"%char.

Definition starts_with_sep (p : string) : bool :=
  match p with String c _ => is_sep c | EmptyString => false end.

Definition ends_with_sep (p : string) : bool :=
  match last_char p with Some c => is_sep c | None => false end.

(** [os.path.join(a, p)] on Windows, where the script runs: a second
    component that begins with a separator replaces the first, otherwise
    the two are glued with one backslash unless the first is empty or
    already ends in a separator.  This is what [ntpath.join] does when
    [p] carries no drive letter, [a] is not a drive letter alone and,
    if [p] is absolute, [a] carries no drive either; drive letters and
    UNC prefixes are not modelled beyond that.  The names the script
    joins to [L10n] and [FDevIDs] come from a directory listing or are
    literals and carry no drive; for the paths in the directory of
    temporary files the condition is [joins_plainly] below. *)
Definition join (a p : string) : string :=
  if starts_with_sep p then p
  else if String.eqb a EmptyString || ends_with_sep a then a +:+ p
  else a +:+ "\" +:+ p.

(** [p] lies below the directory [d]. *)
Definition under (d p : string) : bool :=
  startswith (d +:+ "\") p || startswith (d +:+ "/") p
  || (ends_with_sep d && startswith d p && negb (String.eqb d p)).

(** ** The world outside the script *)

Record World := mkWorld {
  files : gmap string string;
    (* regular files: path to text *)
  dirs : gmap string (list string);
    (* directories: path to the entry names, in the order
       os.listdir reports them *)
  stdout : list string;
    (* the lines printed so far *)
}.

Inductive exn :=
| SystemExit (code : string)
| TypeError
| FileNotFoundError (path : string)
| SameFileError (path : string)
| AttributeError
| ValueError (literal : string)
| IndexError
| AssertionError (msg : string)
| NameError (name : string)
| NotADirectoryError (path : string).

Inductive event :=
| ERead (path : string)
| EWrite (path content : string)
| EPrint (line : string)
| EListdir (path : string)
| ERmtree (path : string)
| ECopy (src dst : string)
| ESystem (cmd : string).

Inductive outcome (A : Type) :=
| Return (a : A)
| Raise (e : exn).
Arguments Return {A} a.
Arguments Raise {A} e.

Record res (A : Type) := mkRes {
  result : outcome A;
  world : World;
  trace : list event;
}.
Arguments mkRes {A} _ _ _.
Arguments result {A} _.
Arguments world {A} _.
Arguments trace {A} _.

(** A computation starts in a world and ends in a world, with a value or
    an exception and the events it performed, oldest first. *)
Definition M (A : Type) : Type := World -> res A.

Definition ret {A} (a : A) : M A := fun w => mkRes (Return a) w [].

Definition raise {A} (e : exn) : M A := fun w => mkRes (Raise e) w [].

Definition bind {A B} (m : M A) (f : A -> M B) : M B := fun w =>
  let r := m w in
  match result r with
  | Return a =>
      let r' := f a (world r) in
      mkRes (result r') (world r') (trace r ++ trace r')
  | Raise e => mkRes (Raise e) (world r) (trace r)
  end.

Notation "x <- m ;; k" := (bind m (fun x => k))
  (at level 100, m at next level, right associativity).
Notation "m ;; k" := (bind m (fun _ => k))
  (at level 100, right associativity).

Definition emit (ev : event) : M unit := fun w => mkRes (Return tt) w [ev].



(** [sys.exit(msg)] *)
Definition sys_exit {A} (msg : string) : M A := raise (SystemExit msg).

(** [open(path, encoding=...).read()] *)
Definition read_text (path : string) : M string := fun w =>
  match files w !! path with
  | Some text => mkRes (Return text) w [ERead path]
  | None => mkRes (Raise (FileNotFoundError path)) w []
  end.

(** [with open(path, "w+", encoding="utf-8") as f: f.write(text)]: the
    file is created or truncated and holds [text] afterwards. *)
Definition write_text (path text : string) : M unit := fun w =>
  mkRes (Return tt)
        (mkWorld (<[path := text]> (files w)) (dirs w) (stdout w))
        [EWrite path text].

(** [print(line)] *)
Definition print (line : string) : M unit := fun w =>
  mkRes (Return tt)
        (mkWorld (files w) (dirs w) (stdout w ++ [line]))
        [EPrint line].

(** [os.path.isdir(path)] *)
Definition isdir (path : string) (w : World) : bool :=
  bool_decide (is_Some (dirs w !! path)).

(** [os.listdir(path)]: the names in a directory; a regular file in
    the place of the directory and a path that leads nowhere raise
    different exceptions. *)
Definition listdir (path : string) : M (list string) := fun w =>
  match dirs w !! path with
  | Some names => mkRes (Return names) w [EListdir path]
  | None =>
      match files w !! path with
      | Some _ => mkRes (Raise (NotADirectoryError path)) w []
      | None => mkRes (Raise (FileNotFoundError path)) w []
      end
  end.

(** An entry of the file system that is neither [d] nor below it. *)
Definition outside (d : string) {A} (entry : string * A) : Prop :=
  entry.1 <> d /\ under d entry.1 = false.

Global Instance outside_dec d {A} (entry : string * A) :
  Decision (outside d entry).
Proof. unfold outside. apply _. Defined.

(** [shutil.rmtree(path)]: the directory and all that lies below it are
    gone.  What lies below is read off the spelling ([under]): the
    entries whose path is [path] followed by a separator.  That is all
    the tree when [path] names a directory inside the working directory
    ([ordinary_name] below), as the script's [dist.win32] does; for a
    [path] that reaches the working directory itself or a directory
    above it ([.], [..], an absolute path) the real call removes more
    than the model does.  The listing of the parent directory is left
    as it is; the script never lists the parent of what it removes. *)
Definition rmtree (path : string) : M unit := fun w =>
  mkRes (Return tt)
        (mkWorld (filter (outside path) (files w))
                 (filter (outside path) (dirs w))
                 (stdout w))
        [ERmtree path].

(** [shutil.copyfile(src, dst)]: the test for one and the same file
    looks at the files, so it answers no when the source is not there,
    and the copy then fails at opening the source. *)
Definition copyfile (src dst : string) : M unit := fun w =>
  match files w !! src with
  | None => mkRes (Raise (FileNotFoundError src)) w []
  | Some data =>
      if String.eqb src dst then mkRes (Raise (SameFileError src)) w []
      else mkRes (Return tt)
                 (mkWorld (<[dst := data]> (files w)) (dirs w) (stdout w))
                 [ECopy src dst]
  end.

(** ** The interpreter and the host *)

(** An element of a tuple, as far as [sys.version_info] needs it. *)
Inductive pyval :=
| PInt (z : Z)
| PStr (s : string).

Definition pyval_eqb (a b : pyval) : bool :=
  match a, b with
  | PInt x, PInt y => x =? y
  | PStr x, PStr y => String.eqb x y
  | _, _ => false
  end.

(** [a < b]; [None] is the [TypeError] for an [int] against a [str]. *)
Definition pyval_lt (a b : pyval) : option bool :=
  match a, b with
  | PInt x, PInt y => Some (x <? y)
  | PStr x, PStr y => Some (String.ltb x y)
  | _, _ => None
  end.

(** [a < b] on tuples: the first position where the two differ decides;
    when one is a prefix of the other the shorter one is the smaller. *)
Fixpoint tuple_lt (a b : list pyval) : option bool :=
  match a, b with
  | [], [] => Some false
  | [], _ :: _ => Some true
  | _ :: _, [] => Some false
  | x :: a', y :: b' => if pyval_eqb x y then tuple_lt a' b' else pyval_lt x y
  end.

Record VersionInfo := mkVersionInfo {
  major : Z;
  minor : Z;
  micro : Z;
  releaselevel : string;
  serial : Z;
}.

Definition as_tuple (v : VersionInfo) : list pyval :=
  [PInt (major v); PInt (minor v); PInt (micro v);
   PStr (releaselevel v); PInt (serial v)].

(** What the script reads from the interpreter, the host and the
    [config] module.  [git_shorthash_from_head] lives in [config.py],
    which is not part of the sources at hand: its answer, a short hash or
    [None], is an input.  [os_system] is the shell: a command line is run
    by a program the script knows nothing about, which may change the
    world and answers with an exit status.  [sdkpath] is the module
    global [SDKPATH] as a caller of [windows_installer_display_lang]
    finds it: the value the body of the script gave it, or nothing when
    the module was imported. *)
Record Env := mkEnv {
  version_info : VersionInfo;
  version : string;
  platform : string;
  git_shorthash_from_head : option string;
  gettempdir : string;
  os_system : string -> World -> Z * World;
  sdkpath : option string;
}.

(** ** Regular expressions

    The fragment of Python's [re] that the script uses.  The matcher is a
    backtracking one, as [re] is: the alternatives are tried in the order
    of their priority and the first one that lets the rest of the pattern
    match wins.  The continuation [k] is the rest of the pattern; [g] is
    the text of group 1 so far. *)

Inductive regex :=
| REps
| RChar (c : ascii)            (* a literal character *)
| RSpace                       (* \s *)
| RAny                         (* . : any character but a newline *)
| RSeq (r1 r2 : regex)
| RStar (r : regex)            (* r* , greedy *)
| RPlusLazy (r : regex)        (* r+? *)
| RGroup (r : regex).          (* ( r ) as group 1 *)

Definition newline : ascii := "010"%char.
Definition dquote : ascii := "034"%char.

Definition shorter (s' s : string) : bool :=
  (String.length s' <? String.length s)%nat.

(** What is left of the pattern once a piece of it has matched: the rest
    of the string and the text of group 1 go in, the outcome of the
    whole match comes out. *)
Definition cont (X : Type) : Type := string -> option string -> option X.

Definition matcher (X : Type) : Type :=
  string -> option string -> cont X -> option X.

(** [r*], greedy: one more round of [r] is tried first, and the rest of
    the pattern only when that leads nowhere.  A round that consumes
    nothing ends the repetition. *)
Fixpoint star_loop {X} (m : matcher X) (fuel : nat) : matcher X :=
  fun s g k =>
    match fuel with
    | O => k s g
    | S fuel' =>
        match m s g (fun s' g' =>
                       if shorter s' s then star_loop m fuel' s' g' k
                       else None) with
        | Some x => Some x
        | None => k s g
        end
    end.

(** [r+?], lazy: after each round of [r] the rest of the pattern is
    tried first, and one more round only when that leads nowhere. *)
Fixpoint plus_lazy_loop {X} (m : matcher X) (fuel : nat) : matcher X :=
  fun s g k =>
    m s g (fun s' g' =>
             match k s' g' with
             | Some x => Some x
             | None =>
                 match fuel with
                 | O => None
                 | S fuel' =>
                     if shorter s' s then plus_lazy_loop m fuel' s' g' k
                     else None
                 end
             end).

Fixpoint rmatch {X} (r : regex) : matcher X :=
  match r with
  | REps => fun s g k => k s g
  | RChar c => fun s g k =>
      match s with
      | String a s' => if Ascii.eqb a c then k s' g else None
      | EmptyString => None
      end
  | RSpace => fun s g k =>
      match s with
      | String a s' => if isspace a then k s' g else None
      | EmptyString => None
      end
  | RAny => fun s g k =>
      match s with
      | String a s' => if Ascii.eqb a newline then None else k s' g
      | EmptyString => None
      end
  | RSeq r1 r2 => fun s g k =>
      rmatch r1 s g (fun s' g' => rmatch r2 s' g' k)
  | RStar r' => fun s g k =>
      star_loop (rmatch r') (String.length s) s g k
  | RPlusLazy r' => fun s g k =>
      plus_lazy_loop (rmatch r') (String.length s) s g k
  | RGroup r' => fun s g k =>
      rmatch r' s g
        (fun s' _ =>
           k s' (Some (take_str (String.length s - String.length s') s)))
  end.

(** [re.search(r, s)]: the match at the leftmost position that has one;
    the answer is the text of group 1. *)
Fixpoint re_search (r : regex) (s : string) : option (option string) :=
  match rmatch r s None (fun _ g => Some g) with
  | Some g => Some g
  | None =>
      match s with
      | String _ s' => re_search r s'
      | EmptyString => None
      end
  end.

Fixpoint lit (s : string) : regex :=
  match s with
  | EmptyString => REps
  | String c s' => RSeq (RChar c) (lit s')
  end.

(** The pattern [Languages\s*=\s*"(.+?)"]. *)
Definition languages_pattern : regex :=
  RSeq (lit "Languages")
    (RSeq (RStar RSpace)
       (RSeq (RChar "=")
          (RSeq (RStar RSpace)
             (RSeq (RChar dquote)
                (RSeq (RGroup (RPlusLazy RAny)) (RChar dquote)))))).

(** ** [int(x)] on a string *)

Fixpoint skip_spaces (s : string) : string :=
  match s with
  | String c s' => if int_space c then skip_spaces s' else s
  | EmptyString => s
  end.

(** The digits of a literal, with single underscores allowed between
    them: the value, the number of digits and what follows. *)
Fixpoint scan_digits (s : string) (acc : Z) (ndigits : nat)
    (after_underscore : bool) : option (Z * nat * string) :=
  match s with
  | String c s' =>
      match digit_value c with
      | Some d => scan_digits s' (10 * acc + d) (S ndigits) false
      | None =>
          if Ascii.eqb c "_" then
            if after_underscore then None
            else scan_digits s' acc ndigits true
          else if after_underscore then None
          else Some (acc, ndigits, s)
      end
  | EmptyString =>
      if after_underscore then None else Some (acc, ndigits, s)
  end.

(** [sys.get_int_max_str_digits()], at its default. *)
Definition int_max_str_digits : nat := 4300.

(** The part of a literal after the sign. *)
Definition int_digits (sign : Z) (s : string) : option Z :=
  if startswith "_" s then None
  else
    match scan_digits s 0 0 false with
    | Some (v, n, rest) =>
        if (n =? 0)%nat then None
        else if (int_max_str_digits <? n)%nat then None
        else
          match skip_spaces rest with
          | EmptyString => Some (sign * v)
          | String _ _ => None
          end
    | None => None
    end.

(** [int(x)] in base 10; [None] is the [ValueError]. *)
Definition py_int (x : string) : option Z :=
  match skip_spaces x with
  | String "+" r => int_digits 1 r
  | String "-" r => int_digits (-1) r
  | s => int_digits 1 s
  end.

(** ** The script *)

Definition PLUGINS : list string :=
  ["plugins/coriolis.py";
   "plugins/eddn.py";
   "plugins/edsm.py";
   "plugins/edsy.py";
   "plugins/inara.py"].

(** The value the body of the script binds [SDKPATH] to. *)
Definition SDKPATH : string :=
  "C:\Program Files (x86)\Windows Kits\10\bin\10.0.19041.0\x86".

(** A test that only looks at the world. *)
Definition gets {A} (f : World -> A) : M A := fun w => mkRes (Return (f w)) w [].

(** The truth value of a string: it is not empty. *)
Definition truthy (s : string) : bool :=
  match s with EmptyString => false | String _ _ => true end.

Definition system_check (E : Env) (dist_dir : string) : M string :=
  match tuple_lt (as_tuple (version_info E)) [PInt 3; PInt 11] with
  | None => raise TypeError
  | Some true => sys_exit ("Unexpected Python version " +:+ version E)
  | Some false => ret tt
  end ;;
  (if negb (String.eqb (platform E) "win32")
   then sys_exit ("Unsupported platform " +:+ platform E)
   else ret tt) ;;
  match git_shorthash_from_head E with
  | None => sys_exit "Invalid Git Hash"
  | Some git_shorthash =>
      let gitversion_file := ".gitversion" in
      write_text gitversion_file git_shorthash ;;
      print ("Git short hash: " +:+ git_shorthash) ;;
      clean <- gets (fun w =>
                 truthy dist_dir
                 && (1 <? String.length dist_dir)%nat
                 && isdir dist_dir w) ;;
      (if clean then rmtree dist_dir else ret tt) ;;
      ret gitversion_file
  end.

Definition generate_data_files (app_name gitversion_file : string)
  : M (list (string * list string)) :=
  let l10n_dir := "L10n" in
  let fdevids_dir := "FDevIDs" in
  names <- listdir l10n_dir ;;
  ret [
    (EmptyString,
     [gitversion_file;
      "WinSparkle.dll";
      "WinSparkle.pdb";
      "EUROCAPS.TTF";
      "ChangeLog.md";
      "snd_good.wav";
      "snd_bad.wav";
      "modules.p";
      "ships.p";
      app_name +:+ ".VisualElementsManifest.xml";
      app_name +:+ ".ico";
      "EDMarketConnector - TRACE.bat";
      "EDMarketConnector - localserver-auth.bat";
      "EDMarketConnector - reset-ui.bat"]);
    (l10n_dir,
     map (join l10n_dir) (List.filter (endswith ".strings") names));
    (fdevids_dir,
     [join fdevids_dir "commodity.csv";
      join fdevids_dir "rare_commodity.csv"]);
    ("plugins", PLUGINS)
  ].

(** [[int(x) for x in pieces]]: the first piece that is no literal
    raises. *)
Fixpoint ints (pieces : list string) : outcome (list Z) :=
  match pieces with
  | [] => Return []
  | x :: rest =>
      match py_int x with
      | None => Raise (ValueError x)
      | Some n =>
          match ints rest with
          | Return ns => Return (n :: ns)
          | Raise e => Raise e
          end
      end
  end.

(** The locale identifiers in the text of the descriptor: the search,
    [.group(1)] on its answer, the split at the commas and the
    conversion of the pieces. *)
Definition lcids_of (text : string) : outcome (list Z) :=
  match re_search languages_pattern text with
  | None => Raise AttributeError
  | Some None => Raise AttributeError
  | Some (Some group1) => ints (split "," group1)
  end.

Definition lift {A} (o : outcome A) : M A := fun w => mkRes o w [].

(** [os.system(cmd)]: the status comes back and is dropped by every
    caller in the script. *)
Definition run_system (E : Env) (cmd : string) : M Z := fun w =>
  let '(status, w') := os_system E cmd w in
  mkRes (Return status) w' [ESystem cmd].

Definition q : string := String dquote EmptyString.

Definition base_msi (E : Env) (app_name : string) : string :=
  join (gettempdir E) (app_name +:+ "_1033.msi").

Definition lcid_msi (E : Env) (app_name : string) (lcid : Z) : string :=
  join (gettempdir E) (app_name +:+ "_" +:+ str_of_int lcid +:+ ".msi").

(** Reading a module global: a name that is not bound raises. *)
Definition read_global (name : string) (binding : option string)
  : M string :=
  match binding with
  | Some value => ret value
  | None => raise (NameError name)
  end.

(** The three command lines, with [sdk] for the value of [SDKPATH]. *)
Definition stamp_cmd (sdk : string) (E : Env) (app_name : string)
    (lcid : Z) : string :=
  "cscript /nologo " +:+ q +:+ sdk +:+ "\WiLangId.vbs" +:+ q +:+ " "
  +:+ gettempdir E +:+ "\" +:+ app_name +:+ "_" +:+ str_of_int lcid
  +:+ ".msi Product " +:+ str_of_int lcid.

Definition transform_cmd (sdk : string) (E : Env) (app_name : string)
    (lcid : Z) : string :=
  q +:+ sdk +:+ "\MsiTran.Exe" +:+ q +:+ " -g "
  +:+ gettempdir E +:+ "\" +:+ app_name +:+ "_1033.msi"
  +:+ " " +:+ gettempdir E +:+ "\" +:+ app_name +:+ "_" +:+ str_of_int lcid
  +:+ ".msi " +:+ gettempdir E +:+ "\" +:+ str_of_int lcid +:+ ".mst".

Definition embed_cmd (sdk : string) (E : Env) (filename : string)
    (lcid : Z) : string :=
  "cscript /nologo " +:+ q +:+ sdk +:+ "\WiSubStg.vbs" +:+ q +:+ " "
  +:+ filename +:+ " " +:+ gettempdir E +:+ "\" +:+ str_of_int lcid
  +:+ ".mst " +:+ str_of_int lcid.

(** The body of the loop over [lcids[1:]].  Each command line is a
    formatted string that begins with the value of [SDKPATH], so the
    global is read after the copy and before the first tool is called. *)
Definition per_lcid (E : Env) (app_name filename : string) (lcid : Z)
  : M unit :=
  copyfile (base_msi E app_name) (lcid_msi E app_name lcid) ;;
  sdk <- read_global "SDKPATH" (sdkpath E) ;;
  run_system E (stamp_cmd sdk E app_name lcid) ;;
  sdk <- read_global "SDKPATH" (sdkpath E) ;;
  run_system E (transform_cmd sdk E app_name lcid) ;;
  sdk <- read_global "SDKPATH" (sdkpath E) ;;
  run_system E (embed_cmd sdk E filename lcid) ;;
  ret tt.

Fixpoint for_each {A} (body : A -> M unit) (xs : list A) : M unit :=
  match xs with
  | [] => ret tt
  | x :: rest => body x ;; for_each body rest
  end.

Definition windows_installer_display_lang (E : Env)
    (app_name filename : string) : M unit :=
  text <- read_text (app_name +:+ ".wxs") ;;
  lcids <- lift (lcids_of text) ;;
  match lcids with
  | [] => raise IndexError
  | first :: _ =>
      if first =? 1033 then ret tt
      else raise (AssertionError
                    ("Default language is " +:+ str_of_int first
                     +:+ ", should be 1033 (en_US)"))
  end ;;
  copyfile filename (base_msi E app_name) ;;
  for_each (per_lcid E app_name filename) (tail lcids).

(** ** Notions the statements use *)

(** The interpreter is older than 3.11. *)
Definition too_old (v : VersionInfo) : Prop :=
  major v < 3 \/ (major v = 3 /\ minor v < 11).

(** One of the three things [system_check] looks at is not as the build
    needs it. *)
Definition unsupported (E : Env) : Prop :=
  too_old (version_info E)
  \/ platform E <> "win32"
  \/ git_shorthash_from_head E = None.

Global Instance too_old_dec v : Decision (too_old v).
Proof. unfold too_old. apply _. Defined.

Global Instance unsupported_dec E : Decision (unsupported E).
Proof. unfold unsupported. apply _. Defined.

(** [s] ends with [suffix], said without computing. *)
Definition has_suffix (suffix s : string) : Prop :=
  exists front, s = front +:+ suffix.

(** What a run wrote into the file [path], oldest first. *)
Fixpoint written (path : string) (t : list event) : list string :=
  match t with
  | [] => []
  | EWrite p text :: t' =>
      if String.eqb p path then text :: written path t' else written path t'
  | _ :: t' => written path t'
  end.

(** The copies a run made, as pairs of source and destination. *)
Fixpoint copies (t : list event) : list (string * string) :=
  match t with
  | [] => []
  | ECopy src dst :: t' => (src, dst) :: copies t'
  | _ :: t' => copies t'
  end.

(** The command lines a run handed to the shell. *)
Fixpoint commands (t : list event) : list string :=
  match t with
  | [] => []
  | ESystem cmd :: t' => cmd :: commands t'
  | _ :: t' => commands t'
  end.

(** The tools behind [os_system] leave the file [path] in place. *)
Definition keeps (E : Env) (path : string) : Prop :=
  forall cmd w,
    is_Some (files w !! path) ->
    is_Some (files (os_system E cmd w).2 !! path).

(** The tools behind [os_system] leave the content of the file [path]
    as it is. *)
Definition preserves (E : Env) (path : string) : Prop :=
  forall cmd w, files (os_system E cmd w).2 !! path = files w !! path.

(** Two hosts whose tools do the same to the world and where [SDKPATH]
    is bound alike; the exit statuses the tools answer with are free to
    differ. *)
Definition same_effects (E1 E2 : Env) : Prop :=
  gettempdir E1 = gettempdir E2
  /\ sdkpath E1 = sdkpath E2
  /\ forall cmd w, (os_system E1 cmd w).2 = (os_system E2 cmd w).2.

(** The three command lines of one turn of the loop. *)
Definition tool_cmds (sdk : string) (E : Env) (app_name filename : string)
    (lcid : Z) : list string :=
  [stamp_cmd sdk E app_name lcid;
   transform_cmd sdk E app_name lcid;
   embed_cmd sdk E filename lcid].

(** The events of one turn of the loop that runs to its end. *)
Definition turn_events (sdk : string) (E : Env) (app_name filename : string)
    (lcid : Z) : list event :=
  ECopy (base_msi E app_name) (lcid_msi E app_name lcid)
  :: map ESystem (tool_cmds sdk E app_name filename lcid).

(** The world once the copy for [lcid] holds [data]. *)
Definition with_copy (E : Env) (app_name : string) (lcid : Z)
    (data : string) (w : World) : World :=
  mkWorld (<[lcid_msi E app_name lcid := data]> (files w)) (dirs w) (stdout w).

(** *** Descriptors with a list of identifiers *)

Fixpoint all_chars (f : ascii -> bool) (s : string) : bool :=
  match s with
  | EmptyString => true
  | String c s' => f c && all_chars f s'
  end.

(** A character of a decimal literal: a digit or the minus sign. *)
Definition literal_char (c : ascii) : bool := is_digit c || Ascii.eqb c "-".

(** A character that [.+?] takes and that does not end the value. *)
Definition value_char (c : ascii) : bool :=
  negb (Ascii.eqb c newline) && negb (Ascii.eqb c dquote).

Definition not_char (sep c : ascii) : bool := negb (Ascii.eqb c sep).

(** The identifiers in decimal with [sep] between them. *)
Definition separated (sep : string) (ids : list Z) : string :=
  String.concat sep (map str_of_int ids).

(** A text in which the attribute [Languages] has the value [value]. *)
Definition descriptor (before ws1 ws2 value after : string) : string :=
  before +:+ "Languages" +:+ ws1 +:+ "=" +:+ ws2 +:+ q +:+ value +:+ q
  +:+ after.

(** The word [Languages] does not begin at any of the first [n] places
    of [text]. *)
Definition not_before (n : nat) (text : string) : Prop :=
  forall i, (i < n)%nat -> startswith "Languages" (drop_str i text) = false.

(** The number of digits of [n] in decimal. *)
Definition decimal_digits (n : Z) : nat :=
  String.length (str_of_int (Z.abs n)).

(** *** Paths that mean what their spelling says *)

Fixpoint any_char (f : ascii -> bool) (s : string) : bool :=
  match s with
  | EmptyString => false
  | String c s' => f c || any_char f s'
  end.

(** An ASCII letter or digit. *)
Definition is_alnum (c : ascii) : bool :=
  let n := code c in
  ((48 <=? n) && (n <=? 57) || (65 <=? n) && (n <=? 90)
   || (97 <=? n) && (n <=? 122))%N.

Definition name_char (c : ascii) : bool :=
  is_alnum c || Ascii.eqb c "." || Ascii.eqb c "_" || Ascii.eqb c "-".

(** A name of letters, digits, dots, underscores and hyphens with at
    least one letter or digit, such as [dist.win32]: it names an entry
    of the working directory, never the working directory itself or a
    directory above it. *)
Definition ordinary_name (d : string) : bool :=
  all_chars name_char d && any_char is_alnum d.

(** The cleanup of the output directory [d] cannot take the stamp file
    with it: there is nothing to clean, or [d] names another entry of
    the working directory. *)
Definition spares_stamp (d : string) (w : World) : Prop :=
  (String.length d <= 1)%nat
  \/ isdir d w = false
  \/ (ordinary_name d = true /\ d <> ".gitversion").

(** The second character is a colon: the path begins with a drive. *)
Definition has_drive (p : string) : bool :=
  match p with
  | String _ (String c _) => Ascii.eqb c ":"
  | _ => false
  end.

(** A drive and nothing after it. *)
Definition bare_drive (p : string) : bool :=
  match p with
  | String _ (String c EmptyString) => Ascii.eqb c ":"
  | _ => false
  end.

(** Two separators in front, as a UNC prefix has them. *)
Definition unc_like (p : string) : bool :=
  match p with
  | String a (String b _) => is_sep a && is_sep b
  | _ => false
  end.

(** The directory of temporary files [tmp] and the product name
    [app_name] are such that [join tmp (app_name +:+ tail)] is the path
    [ntpath.join] gives: the second component is relative and carries
    no drive, and the first is neither a drive alone nor a UNC path. *)
Definition joins_plainly (tmp app_name : string) : Prop :=
  bare_drive tmp = false
  /\ unc_like tmp = false
  /\ starts_with_sep app_name = false
  /\ has_drive app_name = false.

(** *** Sample inputs *)

(** A host that passes the preflight check and where [SDKPATH] is bound
    as the body of the script binds it; its tools leave the files alone
    and answer with status 1. *)
Definition sample_env : Env :=
  mkEnv (mkVersionInfo 3 11 4 "final" 0) "3.11.4 (main)" "win32"
        (Some "abc1234") "C:\Temp" (fun _ w => (1, w)) (Some SDKPATH).

(** The same host with tools that answer with status 0. *)
Definition quiet_env : Env :=
  mkEnv (mkVersionInfo 3 11 4 "final" 0) "3.11.4 (main)" "win32"
        (Some "abc1234") "C:\Temp" (fun _ w => (0, w)) (Some SDKPATH).

(** The same host as a caller finds it that imported the module: the
    body of the script has not run and [SDKPATH] is not bound. *)
Definition import_env : Env :=
  mkEnv (mkVersionInfo 3 11 4 "final" 0) "3.11.4 (main)" "win32"
        (Some "abc1234") "C:\Temp" (fun _ w => (1, w)) None.

(** A newer interpreter on the same commit. *)
Definition newer_env : Env :=
  mkEnv (mkVersionInfo 3 12 0 "final" 0) "3.12.0 (main)" "win32"
        (Some "abc1234") "D:\tmp" (fun _ w => (0, w)) (Some SDKPATH).

(** A host that is not Windows. *)
Definition linux_env : Env :=
  mkEnv (mkVersionInfo 3 11 4 "final" 0) "3.11.4 (main)" "linux"
        (Some "abc1234") "/tmp" (fun _ w => (0, w)) None.

Definition sample_wxs (value : string) : string :=
  descriptor "<Package " " " " " value " />".

(** A checkout with the descriptor [wxs], a built package, an output
    directory of an earlier build and the localization directory with
    the listing [l10n]. *)
Definition sample_world (wxs : string) (l10n : list string) : World :=
  mkWorld {[ "EDMC.wxs" := wxs; "EDMC.msi" := "package" ]}
          {[ "L10n" := l10n; "dist.win32" := [] ]}
          [].

Definition sample_listing : list string :=
  ["de.strings"; "fr.strings"; "readme.txt"].

(** ** The body of the script

    What runs under [if __name__ == "__main__":] up to the call of
    [py2exe.freeze].  The freeze itself is the work of another program;
    the embedding ends with the keyword arguments the call is made with. *)

(** What the body reads besides the host: the environment variables
    and the names and versions of the [config] module, which is not part
    of the sources at hand. *)
Record Config := mkConfig {
  environ : gmap string string;
  appname : string;
  appcmdname : string;
  appversion : string;
    (* str(appversion()) *)
  appversion_truncated : string;
    (* str(appversion().truncate()) *)
  copyright : string;
}.

(** The [version_info] dictionary, key by key. *)
Record VersionDict := mkVersionDict {
  vd_description : string;
  vd_company_name : string;
  vd_product_name : string;
  vd_version : string;
  vd_product_version : string;
  vd_copyright : string;
  vd_language : string;
}.

(** [windows_config] and [console_config]; the console one has no
    [icon_resources] key. *)
Record ExeConfig := mkExeConfig {
  dest_base : string;
  script : string;
  icon_resources : option (list (Z * string));
  other_resources : list (Z * Z * string);
}.

(** [OPTIONS["py2exe"]] *)
Record Py2exeOptions := mkPy2exeOptions {
  dist_dir : string;
  optimize : Z;
  packages : list string;
  includes : list string;
  excludes : list string;
}.

(** The keyword arguments of [py2exe.freeze]. *)
Record FreezeArgs := mkFreezeArgs {
  fa_version_info : VersionDict;
  fa_windows : list ExeConfig;
  fa_console : list ExeConfig;
  fa_data_files : list (string * list string);
  fa_options : Py2exeOptions;
}.

Definition DIST_DIR : string := "dist.win32".

Definition OPTIONS : Py2exeOptions :=
  {| dist_dir := DIST_DIR;
     optimize := 2;
     packages := ["asyncio";
                  "multiprocessing";
                  "pkg_resources._vendor.platformdirs";
                  "sqlite3";
                  "util"];
     includes := ["dataclasses"; "shutil"; "timeout_session"; "zipfile"];
     excludes := ["distutils";
                  "_markerlib";
                  "optparse";
                  "PIL";
                  "simplejson";
                  "unittest";
                  "doctest";
                  "pdb";
                  "difflib"] |}.

(** From [DATA_FILES] to the arguments of the freeze. *)
Definition prepare (C : Config) (GITVERSION_FILENAME : string)
  : M FreezeArgs :=
  DATA_FILES <- generate_data_files (appname C) GITVERSION_FILENAME ;;
  let version_info :=
    {| vd_description :=
         "Downloads commodity market and other station data from the game"
         +:+ " Elite Dangerous for use with all popular online and offline trading tools.";
       vd_company_name := "EDCD";
       vd_product_name := appname C;
       vd_version := appversion_truncated C;
       vd_product_version := appversion C;
       vd_copyright := copyright C;
       vd_language := "English (United States)" |} in
  manifest <- read_text (appname C +:+ ".manifest") ;;
  let windows_config :=
    {| dest_base := appname C;
       script := "EDMarketConnector.py";
       icon_resources := Some [(0, appname C +:+ ".ico")];
       other_resources := [(24, 1, manifest)] |} in
  cmd_manifest <- read_text (appcmdname C +:+ ".manifest") ;;
  let console_config :=
    {| dest_base := appcmdname C;
       script := "EDMC.py";
       icon_resources := None;
       other_resources := [(24, 1, cmd_manifest)] |} in
  ret {| fa_version_info := version_info;
         fa_windows := [windows_config];
         fa_console := [console_config];
         fa_data_files := DATA_FILES;
         fa_options := OPTIONS |}.

(** How the body ends: with the call of the freeze, with an exception
    of one of the functions above, or with the [KeyError] of a variable
    that the environment does not have. *)
Inductive main_outcome :=
| CallsFreeze (args : FreezeArgs)
| Fails (e : exn)
| KeyError (key : string).

Record main_res := mkMainRes {
  main_result : main_outcome;
  main_world : World;
  main_trace : list event;
}.

Definition main (E : Env) (C : Config) (w : World) : main_res :=
  let r1 := system_check E DIST_DIR w in
  match result r1 with
  | Raise e => mkMainRes (Fails e) (world r1) (trace r1)
  | Return GITVERSION_FILENAME =>
      match environ C !! "WIX" with
      | None => mkMainRes (KeyError "WIX") (world r1) (trace r1)
      | Some wix =>
          let WIXPATH := wix +:+ "\bin" in
          let r2 := prepare C GITVERSION_FILENAME (world r1) in
          mkMainRes
            match result r2 with
            | Return args => CallsFreeze args
            | Raise e => Fails e
            end
            (world r2) (trace r1 ++ trace r2)
      end
  end.

(** *** Notions of the further statements *)

(** No separator stands in [p]: a plain name. *)
Definition plain_name (p : string) : bool :=
  all_chars (fun c => negb (is_sep c)) p.

(** [p] begins with [front], said without computing. *)
Definition has_prefix (front p : string) : Prop :=
  exists rest, p = front +:+ rest.

(** White space that [int()] skips and that [.] matches. *)
Definition pad_char (c : ascii) : bool :=
  int_space c && negb (Ascii.eqb c newline).

(** An identifier as it may stand in the list: in decimal, with white
    space before and after. *)
Definition padded (item : string * Z * string) : string :=
  item.1.1 +:+ str_of_int item.1.2 +:+ item.2.

Definition pads_ok (item : string * Z * string) : Prop :=
  all_chars pad_char item.1.1 = true
  /\ all_chars pad_char item.2 = true
  /\ (decimal_digits item.1.2 <= int_max_str_digits)%nat.

(** A piece that may stand between two commas of the value. *)
Definition piece_char (c : ascii) : bool :=
  value_char c && not_char "," c.

(** *** Further sample inputs *)

Definition sample_config : Config :=
  mkConfig {[ "WIX" := "C:\WiX" ]} "EDMC" "EDMCcmd"
           "5.9.0+abc1234" "5.9.0" "(c) EDCD".

Definition no_wix_config : Config :=
  mkConfig ∅ "EDMC" "EDMCcmd" "5.9.0+abc1234" "5.9.0" "(c) EDCD".

Definition other_wix_config : Config :=
  mkConfig {[ "WIX" := "D:\Tools\WiX Toolset" ]} "EDMC" "EDMCcmd"
           "5.9.0+abc1234" "5.9.0" "(c) EDCD".

(** A checkout with all that the body of the script reads, and the
    output of an earlier build. *)
Definition build_world : World :=
  mkWorld {[ "EDMC.manifest" := "<assembly gui />";
             "EDMCcmd.manifest" := "<assembly console />";
             "dist.win32\EDMC.exe" := "old";
             "ChangeLog.md" := "changes" ]}
          {[ "L10n" := sample_listing; "dist.win32" := ["EDMC.exe"] ]}
          [].

(** The path from the directory [d] down through the entries [names]. *)
Fixpoint descend (d : string) (names : list string) : string :=
  match names with
  | [] => d
  | name :: names' => descend (d +:+ "\" +:+ name) names'
  end.

(** The manifest a run came back with, or the empty one. *)
Definition manifest_of (r : res (list (string * list string)))
  : list (string * list string) :=
  match result r with
  | Return manifest => manifest
  | Raise _ => []
  end.

(** A run that only looked: the world is as before, nothing was copied
    and no tool was called. *)
Definition only_looked {A} (r : res A) (w : World) : Prop :=
  world r = w /\ copies (trace r) = [] /\ commands (trace r) = [].

(** * Properties *)

(** ** The model at work *)

Example version_3_11_0_is_new_enough :
  tuple_lt (as_tuple (mkVersionInfo 3 11 0 "final" 0)) [PInt 3; PInt 11]
  = Some false.
Proof. reflexivity. Qed.

Example version_3_10_12_is_too_old :
  tuple_lt (as_tuple (mkVersionInfo 3 10 12 "final" 0)) [PInt 3; PInt 11]
  = Some true.
Proof. reflexivity. Qed.

Example version_4_0_is_new_enough :
  tuple_lt (as_tuple (mkVersionInfo 4 0 0 "alpha" 1)) [PInt 3; PInt 11]
  = Some false.
Proof. reflexivity. Qed.

Example int_literals :
  py_int " 1033 " = Some 1033
  /\ py_int "+1_033" = Some 1033
  /\ py_int "-07" = Some (-7)
  /\ py_int "1__0" = None
  /\ py_int "10_" = None
  /\ py_int EmptyString = None
  /\ py_int "1033;1031" = None.
Proof. vm_compute. by repeat split. Qed.

Example split_keeps_empty_pieces :
  split "," "1033,,1031," = ["1033"; EmptyString; "1031"; EmptyString].
Proof. reflexivity. Qed.

Example join_samples :
  join "L10n" "de.strings" = "L10n\de.strings"
  /\ join "C:\Temp" "EDMC_1033.msi" = "C:\Temp\EDMC_1033.msi"
  /\ join "C:\Temp\" "x.msi" = "C:\Temp\x.msi"
  /\ join EmptyString "x.msi" = "x.msi"
  /\ join "L10n" "\x" = "\x".
Proof. vm_compute. by repeat split. Qed.

(** The lazy group ends at the first closing quote, an attribute whose
    value runs over a line break is passed over, and [Language] without
    the final [s] is not the attribute. *)
Example search_samples :
  re_search languages_pattern
    ("Languages=" +:+ q +:+ "1033,1031" +:+ q +:+ " Id=" +:+ q +:+ "7" +:+ q)
  = Some (Some "1033,1031")
  /\ re_search languages_pattern
       ("Languages =" +:+ q +:+ String newline "1033" +:+ q
        +:+ " Languages=" +:+ q +:+ "1031" +:+ q)
     = Some (Some "1031")
  /\ re_search languages_pattern ("Language=" +:+ q +:+ "1033" +:+ q) = None.
Proof. vm_compute. by repeat split. Qed.

(** ** Strings *)

Lemma app_str_cons (c : ascii) (a b : string) :
  String c a +:+ b = String c (a +:+ b).
Proof. reflexivity. Qed.

Lemma app_str_nil_l (s : string) : EmptyString +:+ s = s.
Proof. reflexivity. Qed.

Lemma app_str_nil_r (s : string) : s +:+ EmptyString = s.
Proof.
  induction s as [|c s IH]; [reflexivity|]. by rewrite app_str_cons, IH.
Qed.

Lemma app_str_assoc (a b c : string) : (a +:+ b) +:+ c = a +:+ b +:+ c.
Proof.
  induction a as [|x a IH]; [reflexivity|]. by rewrite !app_str_cons, IH.
Qed.

Lemma length_app_str (a b : string) :
  String.length (a +:+ b) = (String.length a + String.length b)%nat.
Proof.
  induction a as [|x a IH]; [reflexivity|]. rewrite app_str_cons. cbn.
  by rewrite IH.
Qed.

Lemma take_drop_str (n : nat) (s : string) :
  take_str n s +:+ drop_str n s = s.
Proof.
  revert s. induction n as [|n IH]; intros [|c s]; cbn; try reflexivity.
  by rewrite app_str_cons, IH.
Qed.

Lemma drop_str_app (a b : string) : drop_str (String.length a) (a +:+ b) = b.
Proof. induction a as [|x a IH]; [reflexivity|]. exact IH. Qed.

Lemma take_str_app (a b : string) : take_str (String.length a) (a +:+ b) = a.
Proof.
  induction a as [|x a IH]; [by destruct b|].
  rewrite app_str_cons. cbn. by rewrite IH.
Qed.

Lemma endswith_spec (suffix s : string) :
  endswith suffix s = true <-> has_suffix suffix s.
Proof.
  unfold endswith, has_suffix. split.
  - intros H. apply andb_true_iff in H as [_ H].
    apply String.eqb_eq in H.
    set (n := (String.length s - String.length suffix)%nat) in *.
    exists (take_str n s). rewrite <- H. symmetry. apply take_drop_str.
  - intros [front ->]. apply andb_true_iff. split.
    + apply Nat.leb_le. rewrite length_app_str. lia.
    + apply String.eqb_eq. rewrite length_app_str.
      replace (String.length front + String.length suffix
               - String.length suffix)%nat with (String.length front) by lia.
      apply drop_str_app.
Qed.

Lemma endswith_false (suffix s : string) :
  endswith suffix s = false <-> ~ has_suffix suffix s.
Proof.
  rewrite <- endswith_spec. destruct (endswith suffix s); split; done.
Qed.

(** ** The preflight check *)

Lemma version_check (v : VersionInfo) :
  tuple_lt (as_tuple v) [PInt 3; PInt 11]
  = Some ((major v <? 3) || (major v =? 3) && (minor v <? 11)).
Proof.
  unfold as_tuple. cbn.
  destruct (major v =? 3) eqn:Hmaj.
  - apply Z.eqb_eq in Hmaj. rewrite Hmaj. cbn.
    destruct (minor v =? 11) eqn:Hmin; [|reflexivity].
    apply Z.eqb_eq in Hmin. by rewrite Hmin.
  - by rewrite orb_false_r.
Qed.

Lemma too_old_spec (v : VersionInfo) :
  (major v <? 3) || (major v =? 3) && (minor v <? 11) = true <-> too_old v.
Proof.
  unfold too_old.
  rewrite orb_true_iff, andb_true_iff, !Z.ltb_lt, Z.eqb_eq. tauto.
Qed.

(** The three ways the check ends, one lemma each.  [past_version]
    takes a run past the comparison of the versions, given that the
    interpreter is not too old. *)

Ltac past_version Hv :=
  rewrite <- too_old_spec in Hv; apply not_true_is_false in Hv;
  unfold system_check, bind; rewrite version_check, Hv;
  cbn [ret result world trace app].

Lemma system_check_old E dist_dir w :
  too_old (version_info E) ->
  system_check E dist_dir w
  = mkRes (Raise (SystemExit ("Unexpected Python version " +:+ version E)))
          w [].
Proof.
  intros H. apply too_old_spec in H.
  unfold system_check, bind. rewrite version_check, H. reflexivity.
Qed.

Lemma system_check_platform E dist_dir w :
  ~ too_old (version_info E) -> platform E <> "win32" ->
  system_check E dist_dir w
  = mkRes (Raise (SystemExit ("Unsupported platform " +:+ platform E))) w [].
Proof.
  intros Hv Hp. apply String.eqb_neq in Hp.
  past_version Hv. rewrite Hp. reflexivity.
Qed.

Lemma system_check_no_hash E dist_dir w :
  ~ too_old (version_info E) -> platform E = "win32" ->
  git_shorthash_from_head E = None ->
  system_check E dist_dir w
  = mkRes (Raise (SystemExit "Invalid Git Hash")) w [].
Proof.
  intros Hv Hp Hg. apply String.eqb_eq in Hp.
  past_version Hv. rewrite Hp, Hg. reflexivity.
Qed.

Lemma system_check_pass E dist_dir w h :
  ~ too_old (version_info E) -> platform E = "win32" ->
  git_shorthash_from_head E = Some h ->
  let stamped := mkWorld (<[".gitversion" := h]> (files w)) (dirs w)
                         (stdout w ++ ["Git short hash: " +:+ h]) in
  system_check E dist_dir w
  = if truthy dist_dir && (1 <? String.length dist_dir)%nat
       && isdir dist_dir w
    then mkRes (Return ".gitversion")
               (mkWorld (filter (outside dist_dir) (files stamped))
                        (filter (outside dist_dir) (dirs stamped))
                        (stdout stamped))
               [EWrite ".gitversion" h; EPrint ("Git short hash: " +:+ h);
                ERmtree dist_dir]
    else mkRes (Return ".gitversion") stamped
               [EWrite ".gitversion" h; EPrint ("Git short hash: " +:+ h)].
Proof.
  intros Hv Hp Hg stamped. apply String.eqb_eq in Hp.
  past_version Hv. rewrite Hp, Hg.
  cbn [negb ret result world trace app write_text print gets].
  change (isdir dist_dir _) with (isdir dist_dir w).
  fold stamped.
  destruct (truthy dist_dir && (1 <? String.length dist_dir)%nat
            && isdir dist_dir w); reflexivity.
Qed.

Lemma supported_cases E :
  ~ unsupported E ->
  ~ too_old (version_info E) /\ platform E = "win32"
  /\ exists h, git_shorthash_from_head E = Some h.
Proof.
  unfold unsupported. intros H. split; [tauto|]. split.
  - destruct (decide (platform E = "win32")); tauto.
  - destruct (git_shorthash_from_head E) as [h|]; [eauto|tauto].
Qed.

Lemma system_check_unsupported E dist_dir w :
  unsupported E ->
  exists msg,
    system_check E dist_dir w = mkRes (Raise (SystemExit msg)) w []
    /\ msg <> EmptyString.
Proof.
  intros H.
  destruct (decide (too_old (version_info E))) as [Hold|Hold].
  { eexists. split; [by apply system_check_old|done]. }
  destruct (decide (platform E = "win32")) as [Hp|Hp].
  2:{ eexists. split; [by apply system_check_platform|done]. }
  destruct (git_shorthash_from_head E) as [h|] eqn:Hg.
  { unfold unsupported in H. rewrite Hg in H.
    destruct H as [?|[?|?]]; [tauto|tauto|discriminate]. }
  eexists. split; [by apply system_check_no_hash|done].
Qed.

Lemma truthy_spec (s : string) : truthy s = true <-> s <> EmptyString.
Proof. destruct s; cbn; split; congruence. Qed.

Lemma isdir_spec (path : string) (w : World) :
  isdir path w = true <-> is_Some (dirs w !! path).
Proof. unfold isdir. apply bool_decide_eq_true. Qed.

Lemma clean_spec (dist_dir : string) (w : World) :
  truthy dist_dir && (1 <? String.length dist_dir)%nat && isdir dist_dir w
  = true
  <-> dist_dir <> EmptyString /\ (1 < String.length dist_dir)%nat
      /\ is_Some (dirs w !! dist_dir).
Proof.
  rewrite !andb_true_iff, truthy_spec, Nat.ltb_lt, isdir_spec. tauto.
Qed.


(** C1: for an output directory path that is empty or one character
    long the check removes no directory tree.  A tree is removed only
    when the path is not empty, is longer than one character and names
    a directory that exists, and it is that directory; when the three
    preflight conditions hold as well, it is removed indeed. *)
Theorem system_check_rmtree_guard E dist_dir w :
  let r := system_check E dist_dir w in
  ((String.length dist_dir <= 1)%nat -> forall p, ERmtree p ∉ trace r)
  /\ (forall p, ERmtree p ∈ trace r ->
        p = dist_dir /\ dist_dir <> EmptyString
        /\ (1 < String.length dist_dir)%nat
        /\ is_Some (dirs w !! dist_dir))
  /\ (~ unsupported E -> dist_dir <> EmptyString ->
      (1 < String.length dist_dir)%nat -> is_Some (dirs w !! dist_dir) ->
      ERmtree dist_dir ∈ trace r).
Proof.
  intros r. subst r.
  assert (Honly : forall p, ERmtree p ∈ trace (system_check E dist_dir w) ->
            p = dist_dir /\ dist_dir <> EmptyString
            /\ (1 < String.length dist_dir)%nat
            /\ is_Some (dirs w !! dist_dir)).
  { intros p Hin.
    destruct (decide (unsupported E)) as [Hu|Hs].
    - destruct (system_check_unsupported E dist_dir w Hu) as (msg & Hr & _).
      rewrite Hr in Hin. cbn in Hin. by apply elem_of_nil in Hin.
    - destruct (supported_cases E Hs) as (Hv & Hp & h & Hg).
      rewrite (system_check_pass E dist_dir w h Hv Hp Hg) in Hin.
      destruct (truthy dist_dir && _ && _) eqn:Hc; cbn in Hin.
      + apply clean_spec in Hc.
        rewrite !elem_of_cons in Hin.
        destruct Hin as [?|[?|[Heq|Hin]]]; try discriminate.
        * by injection Heq as ->.
        * by apply elem_of_nil in Hin.
      + rewrite !elem_of_cons in Hin.
        destruct Hin as [?|[?|Hin]]; try discriminate.
        by apply elem_of_nil in Hin. }
  split; [|split; [exact Honly|]].
  - intros Hlen p Hin. apply Honly in Hin. lia.
  - intros Hs Hne Hlen Hdir.
    destruct (supported_cases E Hs) as (Hv & Hp & h & Hg).
    rewrite (system_check_pass E dist_dir w h Hv Hp Hg).
    assert (Hc : truthy dist_dir && (1 <? String.length dist_dir)%nat
                 && isdir dist_dir w = true) by by apply clean_spec.
    rewrite Hc. cbn. rewrite !elem_of_cons. tauto.
Qed.

(** ** The data files *)

Lemma filter_Permutation {A} (f : A -> bool) (l l' : list A) :
  l ≡ₚ l' -> List.filter f l ≡ₚ List.filter f l'.
Proof.
  induction 1 as [|x l l' _ IH|x y l|l l' l'' _ IH1 _ IH2]; cbn.
  - done.
  - destruct (f x); by rewrite IH.
  - destruct (f x), (f y); try done. apply perm_swap.
  - by rewrite IH1.
Qed.

Lemma generate_data_files_run app_name gitversion_file w names :
  dirs w !! "L10n" = Some names ->
  generate_data_files app_name gitversion_file w
  = mkRes
      (Return [
         (EmptyString,
          [gitversion_file; "WinSparkle.dll"; "WinSparkle.pdb";
           "EUROCAPS.TTF"; "ChangeLog.md"; "snd_good.wav"; "snd_bad.wav";
           "modules.p"; "ships.p";
           app_name +:+ ".VisualElementsManifest.xml";
           app_name +:+ ".ico";
           "EDMarketConnector - TRACE.bat";
           "EDMarketConnector - localserver-auth.bat";
           "EDMarketConnector - reset-ui.bat"]);
         ("L10n",
          map (join "L10n") (List.filter (endswith ".strings") names));
         ("FDevIDs",
          ["FDevIDs\commodity.csv"; "FDevIDs\rare_commodity.csv"]);
         ("plugins", PLUGINS)])
      w [EListdir "L10n"].
Proof.
  intros H. unfold generate_data_files, bind, listdir. rewrite H.
  reflexivity.
Qed.

(** C6: the localization entry of the manifest holds the paths of
    exactly those listed names that end in ".strings"; for a directory
    with de.strings, fr.strings and readme.txt, listed in any order, it
    holds the two string tables and not readme.txt. *)
Theorem generate_data_files_l10n app_name gitversion_file w names :
  dirs w !! "L10n" = Some names ->
  exists top entry fdevids plugins,
    result (generate_data_files app_name gitversion_file w)
    = Return [top; ("L10n", entry); fdevids; plugins]
    /\ (forall p,
          p ∈ entry <->
          exists x, x ∈ names /\ has_suffix ".strings" x
                    /\ p = join "L10n" x)
    /\ entry = map (join "L10n") (List.filter (endswith ".strings") names)
    /\ (names ≡ₚ ["de.strings"; "fr.strings"; "readme.txt"] ->
        entry ≡ₚ ["L10n\de.strings"; "L10n\fr.strings"]).
Proof.
  intros H. rewrite (generate_data_files_run _ _ _ _ H). cbn [result].
  do 4 eexists. split; [reflexivity|]. split; [|split].
  - intros p. rewrite list_elem_of_fmap. split.
    + intros (x & -> & Hx). apply list_elem_of_In, filter_In in Hx.
      destruct Hx as [Hx Hs]. exists x.
      by rewrite <- list_elem_of_In, endswith_spec in *.
    + intros (x & Hx & Hs & ->). exists x. split; [done|].
      apply list_elem_of_In, filter_In.
      by rewrite <- list_elem_of_In, endswith_spec.
  - reflexivity.
  - intros Hp. rewrite (filter_Permutation _ _ _ Hp). reflexivity.
Qed.

(** C9: with no name ending in ".strings" in the listing the function
    still returns the whole manifest, and the list of the localization
    entry is empty. *)
Theorem generate_data_files_no_strings app_name gitversion_file w names :
  dirs w !! "L10n" = Some names ->
  (forall x, x ∈ names -> ~ has_suffix ".strings" x) ->
  generate_data_files app_name gitversion_file w
  = mkRes
      (Return [
         (EmptyString,
          [gitversion_file; "WinSparkle.dll"; "WinSparkle.pdb";
           "EUROCAPS.TTF"; "ChangeLog.md"; "snd_good.wav"; "snd_bad.wav";
           "modules.p"; "ships.p";
           app_name +:+ ".VisualElementsManifest.xml";
           app_name +:+ ".ico";
           "EDMarketConnector - TRACE.bat";
           "EDMarketConnector - localserver-auth.bat";
           "EDMarketConnector - reset-ui.bat"]);
         ("L10n", []);
         ("FDevIDs",
          ["FDevIDs\commodity.csv"; "FDevIDs\rare_commodity.csv"]);
         ("plugins",
          ["plugins/coriolis.py"; "plugins/eddn.py"; "plugins/edsm.py";
           "plugins/edsy.py"; "plugins/inara.py"])])
      w [EListdir "L10n"].
Proof.
  intros H Hnone. rewrite (generate_data_files_run _ _ _ _ H).
  replace (List.filter (endswith ".strings") names) with (@nil string);
    [reflexivity|].
  symmetry. induction names as [|x names IH] in Hnone |- *; [done|].
  cbn. rewrite (proj2 (endswith_false _ _)).
  - apply IH. intros y Hy. apply Hnone. by right.
  - apply Hnone. by left.
Qed.

(** ** The language splitter *)

Lemma split_nonempty (sep : ascii) (s : string) : split sep s <> [].
Proof.
  destruct s as [|c s]; cbn; [done|].
  destruct (Ascii.eqb c sep); [done|]. by destruct (split sep s).
Qed.

Lemma ints_length (pieces : list string) (ns : list Z) :
  ints pieces = Return ns -> length ns = length pieces.
Proof.
  revert ns. induction pieces as [|x pieces IH]; intros ns H; cbn in H.
  - by injection H as <-.
  - destruct (py_int x); [|discriminate].
    destruct (ints pieces) as [ns'|]; [|discriminate].
    injection H as <-. cbn. by rewrite (IH ns').
Qed.

Lemma lcids_of_nonempty (text : string) (lcids : list Z) :
  lcids_of text = Return lcids -> lcids <> [].
Proof.
  unfold lcids_of. intros H.
  destruct (re_search languages_pattern text) as [[g|]|]; try discriminate.
  apply ints_length in H. intros ->.
  destruct (split "," g) eqn:Hs; [by apply split_nonempty in Hs|].
  discriminate.
Qed.

(** The function up to the assertion. *)
Lemma splitter_parse_fails E app_name filename w text e :
  files w !! (app_name +:+ ".wxs") = Some text ->
  lcids_of text = Raise e ->
  windows_installer_display_lang E app_name filename w
  = mkRes (Raise e) w [ERead (app_name +:+ ".wxs")].
Proof.
  intros Hf Hl. unfold windows_installer_display_lang, bind, read_text, lift.
  rewrite Hf. cbn [result world trace]. rewrite Hl. reflexivity.
Qed.

Lemma splitter_assert_fails E app_name filename w text first rest :
  files w !! (app_name +:+ ".wxs") = Some text ->
  lcids_of text = Return (first :: rest) ->
  first <> 1033 ->
  windows_installer_display_lang E app_name filename w
  = mkRes (Raise (AssertionError
                    ("Default language is " +:+ str_of_int first
                     +:+ ", should be 1033 (en_US)")))
          w [ERead (app_name +:+ ".wxs")].
Proof.
  intros Hf Hl Hne. apply Z.eqb_neq in Hne.
  unfold windows_installer_display_lang, bind, read_text, lift.
  rewrite Hf. cbn [result world trace]. rewrite Hl.
  cbn [result world trace]. rewrite Hne. reflexivity.
Qed.

Lemma splitter_assert_holds E app_name filename w text rest :
  files w !! (app_name +:+ ".wxs") = Some text ->
  lcids_of text = Return (1033 :: rest) ->
  windows_installer_display_lang E app_name filename w
  = (emit (ERead (app_name +:+ ".wxs")) ;;
     copyfile filename (base_msi E app_name) ;;
     for_each (per_lcid E app_name filename) rest) w.
Proof.
  intros Hf Hl.
  unfold windows_installer_display_lang, bind, read_text, lift, emit.
  rewrite Hf. cbn [result world trace]. rewrite Hl.
  cbn [result world trace ret tail Z.eqb Pos.eqb].
  destruct (result (copyfile filename (base_msi E app_name) w)) eqn:Hc;
    cbn [app]; rewrite ?Hc; [|reflexivity].
  destruct (result (for_each _ _ _)); reflexivity.
Qed.

(** C10: when the pattern has no match in the descriptor, the function
    ends with the exception of an attribute access on [None]; it has
    read the descriptor and done nothing else, so there is no copy, no
    call of a tool, and the files are as they were. *)
Theorem splitter_no_match E app_name filename w text :
  files w !! (app_name +:+ ".wxs") = Some text ->
  re_search languages_pattern text = None ->
  let r := windows_installer_display_lang E app_name filename w in
  result r = Raise AttributeError
  /\ trace r = [ERead (app_name +:+ ".wxs")]
  /\ copies (trace r) = []
  /\ commands (trace r) = []
  /\ world r = w.
Proof.
  intros Hf Hs r. subst r.
  rewrite (splitter_parse_fails E app_name filename w text AttributeError Hf).
  - by repeat split.
  - unfold lcids_of. by rewrite Hs.
Qed.

(** C2: when the list parsed from the descriptor does not begin with
    1033, the function ends with the assertion error; it has read the
    descriptor and done nothing else, so no package was copied and the
    files, those of the temp directory among them, are as they were. *)
Theorem splitter_wrong_default E app_name filename w text lcids :
  files w !! (app_name +:+ ".wxs") = Some text ->
  lcids_of text = Return lcids ->
  head lcids <> Some 1033 ->
  let r := windows_installer_display_lang E app_name filename w in
  (exists msg, result r = Raise (AssertionError msg))
  /\ trace r = [ERead (app_name +:+ ".wxs")]
  /\ copies (trace r) = []
  /\ world r = w.
Proof.
  intros Hf Hl Hh r. subst r.
  destruct lcids as [|first rest]; [by apply lcids_of_nonempty in Hl|].
  rewrite (splitter_assert_fails E app_name filename w text first rest Hf Hl).
  - split; [eauto|]. by repeat split.
  - intros ->. by apply Hh.
Qed.

(** *** Paths of the copies *)

Lemma app_str_inj_l (a b c : string) : a +:+ b = a +:+ c -> b = c.
Proof.
  induction a as [|x a IH]; [done|]. rewrite !app_str_cons.
  intros [= H]. by apply IH.
Qed.

Lemma app_str_inj_r (a b c : string) : a +:+ c = b +:+ c -> a = b.
Proof.
  revert b. induction a as [|x a IH]; intros [|y b] H.
  - done.
  - apply (f_equal String.length) in H.
    rewrite !length_app_str in H. cbn in H. lia.
  - apply (f_equal String.length) in H.
    rewrite !length_app_str in H. cbn in H. lia.
  - rewrite !app_str_cons in H. injection H as -> H. f_equal. by apply IH.
Qed.

Lemma str_of_int_inj (m n : Z) : str_of_int m = str_of_int n -> m = n.
Proof.
  unfold str_of_int. intros H.
  assert (Hnn : forall z, Z.to_int z <> Decimal.Pos Decimal.Nil
                          /\ Z.to_int z <> Decimal.Neg Decimal.Nil).
  { intros [|p|p]; cbn; split; try discriminate;
      intros [= Hp]; by apply DecimalPos.Unsigned.to_uint_nonnil in Hp. }
  apply DecimalZ.to_int_inj.
  assert (Some (Z.to_int m) = Some (Z.to_int n)) as [= ->]; [|done].
  rewrite <- (NilZero.isi (Z.to_int m)), <- (NilZero.isi (Z.to_int n));
    try apply Hnn.
  by rewrite H.
Qed.

Lemma starts_with_sep_app (a : string) (c : ascii) (s1 s2 : string) :
  starts_with_sep (a +:+ String c s1) = starts_with_sep (a +:+ String c s2).
Proof. by destruct a. Qed.

Lemma join_inj (a p1 p2 : string) :
  starts_with_sep p1 = starts_with_sep p2 ->
  join a p1 = join a p2 -> p1 = p2.
Proof.
  unfold join. intros ->. destruct (starts_with_sep p2); [done|].
  destruct (_ || _); intros H.
  - by apply app_str_inj_l in H.
  - by apply app_str_inj_l, app_str_inj_l in H.
Qed.

Lemma lcid_msi_base E app_name : lcid_msi E app_name 1033 = base_msi E app_name.
Proof. reflexivity. Qed.

Lemma lcid_msi_inj E app_name (m n : Z) :
  lcid_msi E app_name m = lcid_msi E app_name n -> m = n.
Proof.
  unfold lcid_msi. intros H.
  apply join_inj in H; [|apply starts_with_sep_app].
  apply app_str_inj_l, app_str_inj_l, app_str_inj_r in H.
  by apply str_of_int_inj.
Qed.

Lemma lcid_msi_ne_base E app_name (lcid : Z) :
  lcid <> 1033 -> base_msi E app_name <> lcid_msi E app_name lcid.
Proof.
  intros Hne H. rewrite <- lcid_msi_base in H.
  by apply lcid_msi_inj in H.
Qed.

(** *** The trace *)

Lemma copies_app (t1 t2 : list event) :
  copies (t1 ++ t2) = copies t1 ++ copies t2.
Proof.
  induction t1 as [|[] t1 IH]; cbn; by rewrite ?IH.
Qed.

Lemma commands_app (t1 t2 : list event) :
  commands (t1 ++ t2) = commands t1 ++ commands t2.
Proof.
  induction t1 as [|[] t1 IH]; cbn; by rewrite ?IH.
Qed.

Lemma copies_turns sdk E app_name filename (lcids : list Z) :
  copies (flat_map (turn_events sdk E app_name filename) lcids)
  = map (fun lcid => (base_msi E app_name, lcid_msi E app_name lcid)) lcids.
Proof.
  induction lcids as [|lcid lcids IH]; [done|]. cbn. by rewrite IH.
Qed.

Lemma commands_turns sdk E app_name filename (lcids : list Z) :
  commands (flat_map (turn_events sdk E app_name filename) lcids)
  = flat_map (tool_cmds sdk E app_name filename) lcids.
Proof.
  induction lcids as [|lcid lcids IH]; [done|]. cbn. by rewrite IH.
Qed.

(** *** Steps of a computation *)

Lemma bind_ret_l {A B} (a : A) (k : A -> M B) (w : World) :
  (x <- ret a ;; k x) w = k a w.
Proof. unfold bind, ret. cbn. by destruct (k a w). Qed.

Lemma bind_raise_l {A B} (e : exn) (k : A -> M B) (w : World) :
  (x <- raise e ;; k x) w = mkRes (Raise e) w [].
Proof. reflexivity. Qed.

Lemma bind_run_system E cmd {A} (k : M A) (w : World) :
  (run_system E cmd ;; k) w
  = mkRes (result (k (os_system E cmd w).2))
          (world (k (os_system E cmd w).2))
          (ESystem cmd :: trace (k (os_system E cmd w).2)).
Proof. unfold bind, run_system. by destruct (os_system E cmd w). Qed.

(** The part of a turn after the copy when [SDKPATH] is bound. *)
Lemma tools_run E app_name filename sdk (lcid : Z) (w : World) :
  sdkpath E = Some sdk ->
  (sdk <- read_global "SDKPATH" (sdkpath E) ;;
   run_system E (stamp_cmd sdk E app_name lcid) ;;
   sdk <- read_global "SDKPATH" (sdkpath E) ;;
   run_system E (transform_cmd sdk E app_name lcid) ;;
   sdk <- read_global "SDKPATH" (sdkpath E) ;;
   run_system E (embed_cmd sdk E filename lcid) ;;
   ret tt) w
  = let w1 := (os_system E (stamp_cmd sdk E app_name lcid) w).2 in
    let w2 := (os_system E (transform_cmd sdk E app_name lcid) w1).2 in
    let w3 := (os_system E (embed_cmd sdk E filename lcid) w2).2 in
    mkRes (Return tt) w3 (map ESystem (tool_cmds sdk E app_name filename lcid)).
Proof.
  intros ->. cbn [read_global].
  rewrite bind_ret_l, bind_run_system.
  rewrite !bind_ret_l, !bind_run_system.
  rewrite !bind_ret_l, !bind_run_system.
  reflexivity.
Qed.

(** A turn: the copy, and then the rest. *)
Lemma per_lcid_copy E app_name filename (lcid : Z) (w : World) :
  per_lcid E app_name filename lcid w
  = match files w !! base_msi E app_name with
    | None => mkRes (Raise (FileNotFoundError (base_msi E app_name))) w []
    | Some data =>
        if String.eqb (base_msi E app_name) (lcid_msi E app_name lcid)
        then mkRes (Raise (SameFileError (base_msi E app_name))) w []
        else
          let r :=
            (sdk <- read_global "SDKPATH" (sdkpath E) ;;
             run_system E (stamp_cmd sdk E app_name lcid) ;;
             sdk <- read_global "SDKPATH" (sdkpath E) ;;
             run_system E (transform_cmd sdk E app_name lcid) ;;
             sdk <- read_global "SDKPATH" (sdkpath E) ;;
             run_system E (embed_cmd sdk E filename lcid) ;;
             ret tt) (with_copy E app_name lcid data w) in
          mkRes (result r) (world r)
                (ECopy (base_msi E app_name) (lcid_msi E app_name lcid)
                 :: trace r)
    end.
Proof.
  unfold per_lcid. unfold bind at 1. unfold copyfile.
  destruct (files w !! base_msi E app_name) as [data|]; [|reflexivity].
  destruct (String.eqb _ _); reflexivity.
Qed.

(** The function from the copy of the package on. *)
Lemma splitter_copy E app_name filename (rest : list Z) (w : World) :
  (emit (ERead (app_name +:+ ".wxs")) ;;
   copyfile filename (base_msi E app_name) ;;
   for_each (per_lcid E app_name filename) rest) w
  = match files w !! filename with
    | None =>
        mkRes (Raise (FileNotFoundError filename)) w
              [ERead (app_name +:+ ".wxs")]
    | Some data =>
        if String.eqb filename (base_msi E app_name)
        then mkRes (Raise (SameFileError filename)) w
                   [ERead (app_name +:+ ".wxs")]
        else
          let r := for_each (per_lcid E app_name filename) rest
                     (mkWorld (<[base_msi E app_name := data]> (files w))
                              (dirs w) (stdout w)) in
          mkRes (result r) (world r)
                (ERead (app_name +:+ ".wxs")
                 :: ECopy filename (base_msi E app_name) :: trace r)
    end.
Proof.
  unfold bind at 1 2. unfold emit, copyfile. cbn [result world trace].
  destruct (files w !! filename) as [data|]; [|reflexivity].
  destruct (String.eqb _ _); [reflexivity|].
  cbn [result world trace].
  by destruct (result (for_each _ _ _)).
Qed.

(** The four ways a run can go, by what the descriptor holds. *)
Lemma splitter_cases E app_name filename w :
  let r := windows_installer_display_lang E app_name filename w in
  let wxs := app_name +:+ ".wxs" in
  (files w !! wxs = None /\ r = mkRes (Raise (FileNotFoundError wxs)) w [])
  \/ (exists text e,
        files w !! wxs = Some text /\ lcids_of text = Raise e
        /\ r = mkRes (Raise e) w [ERead wxs])
  \/ (exists text first rest,
        files w !! wxs = Some text /\ lcids_of text = Return (first :: rest)
        /\ first <> 1033
        /\ r = mkRes (Raise (AssertionError
                               ("Default language is " +:+ str_of_int first
                                +:+ ", should be 1033 (en_US)")))
                     w [ERead wxs])
  \/ (exists text rest,
        files w !! wxs = Some text /\ lcids_of text = Return (1033 :: rest)
        /\ r = (emit (ERead wxs) ;;
                copyfile filename (base_msi E app_name) ;;
                for_each (per_lcid E app_name filename) rest) w).
Proof.
  intros r wxs. subst r wxs.
  destruct (files w !! (app_name +:+ ".wxs")) as [text|] eqn:Hf.
  2:{ left. split; [done|].
      unfold windows_installer_display_lang, bind, read_text.
      by rewrite Hf. }
  right. destruct (lcids_of text) as [lcids|e] eqn:Hl.
  2:{ left. exists text, e. repeat split; try done.
      exact (splitter_parse_fails E app_name filename w text e Hf Hl). }
  right. destruct lcids as [|first rest];
    [by apply lcids_of_nonempty in Hl|].
  destruct (decide (first = 1033)) as [->|Hne].
  - right. exists text, rest. repeat split; try done.
    exact (splitter_assert_holds E app_name filename w text rest Hf Hl).
  - left. exists text, first, rest. repeat split; try done.
    exact (splitter_assert_fails E app_name filename w text first rest
             Hf Hl Hne).
Qed.

(** *** The loop where [SDKPATH] is bound *)

Section Loop.

Variables (E : Env) (app_name filename sdk : string).

Hypothesis sdk_bound : sdkpath E = Some sdk.

(** One turn: once the copy has gone through, the three tools are
    called one after the other, whatever they answer. *)
Lemma per_lcid_run (lcid : Z) (w : World) (data : string) :
  files w !! base_msi E app_name = Some data ->
  lcid <> 1033 ->
  let w0 := with_copy E app_name lcid data w in
  let w1 := (os_system E (stamp_cmd sdk E app_name lcid) w0).2 in
  let w2 := (os_system E (transform_cmd sdk E app_name lcid) w1).2 in
  let w3 := (os_system E (embed_cmd sdk E filename lcid) w2).2 in
  per_lcid E app_name filename lcid w
  = mkRes (Return tt) w3 (turn_events sdk E app_name filename lcid).
Proof.
  intros Hbase Hne w0 w1 w2 w3.
  rewrite per_lcid_copy, Hbase.
  rewrite (proj2 (String.eqb_neq _ _) (lcid_msi_ne_base E app_name lcid Hne)).
  rewrite (tools_run E app_name filename sdk lcid _ sdk_bound).
  reflexivity.
Qed.

(** The loop under an invariant [I] of the worlds it passes through:
    [I] says that the base copy is there, the tools keep it, and so
    does the copy for a locale. *)
Lemma for_each_invariant (I : World -> Prop) (lcids : list Z) (w : World) :
  (forall w, I w -> is_Some (files w !! base_msi E app_name)) ->
  (forall cmd w, I w -> I (os_system E cmd w).2) ->
  (forall lcid data w,
     lcid ∈ lcids -> I w -> files w !! base_msi E app_name = Some data ->
     I (with_copy E app_name lcid data w)) ->
  I w ->
  1033 ∉ lcids ->
  exists w',
    for_each (per_lcid E app_name filename) lcids w
    = mkRes (Return tt) w'
        (flat_map (turn_events sdk E app_name filename) lcids)
    /\ I w'.
Proof.
  intros Hbase Htools. revert w.
  induction lcids as [|lcid lcids IH]; intros w Hcopy HI Hnot.
  - exists w. by split.
  - apply not_elem_of_cons in Hnot as [Hne Hnot].
    destruct (Hbase w HI) as [data Hdata].
    assert (Hne' : lcid <> 1033) by congruence.
    pose proof (per_lcid_run lcid w data Hdata Hne') as Hrun.
    cbn zeta in Hrun.
    set (w3 := (os_system E (embed_cmd sdk E filename lcid) _).2) in Hrun.
    destruct (IH w3) as (w' & Hloop & HI'); [| |done|].
    { intros l d v Hl. apply Hcopy. by right. }
    { subst w3. do 3 apply Htools. apply Hcopy; [by left|done..]. }
    exists w'. split; [|done].
    cbn [for_each]. unfold bind at 1. rewrite Hrun.
    cbn [result world trace]. rewrite Hloop. reflexivity.
Qed.

(** The tools may do to the files what they like, as long as the copy
    for 1033 stays where it is. *)
Lemma for_each_lcids (lcids : list Z) (w : World) :
  keeps E (base_msi E app_name) ->
  is_Some (files w !! base_msi E app_name) ->
  1033 ∉ lcids ->
  exists w',
    for_each (per_lcid E app_name filename) lcids w
    = mkRes (Return tt) w'
        (flat_map (turn_events sdk E app_name filename) lcids)
    /\ is_Some (files w' !! base_msi E app_name).
Proof.
  intros Hkeep Hbase Hnot.
  apply (for_each_invariant
           (fun w => is_Some (files w !! base_msi E app_name)));
    [done|exact Hkeep| |done|done].
  intros lcid data v _ [d Hd] _. unfold with_copy. cbn [files].
  {
    destruct (decide (lcid_msi E app_name lcid = base_msi E app_name))
      as [->|Hne].
    + rewrite lookup_insert_eq. eauto.
    + rewrite lookup_insert_ne by done. eauto. }
Qed.

(** The whole function when the descriptor is in order. *)
Lemma splitter_run (w : World) (text : string) (rest : list Z) :
  keeps E (base_msi E app_name) ->
  files w !! (app_name +:+ ".wxs") = Some text ->
  lcids_of text = Return (1033 :: rest) ->
  is_Some (files w !! filename) ->
  filename <> base_msi E app_name ->
  1033 ∉ rest ->
  exists w',
    windows_installer_display_lang E app_name filename w
    = mkRes (Return tt) w'
        (ERead (app_name +:+ ".wxs")
         :: ECopy filename (base_msi E app_name)
         :: flat_map (turn_events sdk E app_name filename) rest).
Proof.
  intros Hkeep Hf Hl [data Hin] Hne Hnot.
  rewrite (splitter_assert_holds E app_name filename w text rest Hf Hl).
  set (w0 := mkWorld (<[base_msi E app_name := data]> (files w))
                     (dirs w) (stdout w)).
  destruct (for_each_lcids rest w0) as (w' & Hloop & _);
    [done|cbn; rewrite lookup_insert_eq; eauto|done|].
  exists w'. unfold bind, emit, copyfile.
  cbn [result world trace].
  rewrite Hin, (proj2 (String.eqb_neq _ _) Hne).
  cbn [result world trace]. fold w0. rewrite Hloop. reflexivity.
Qed.

(** The copies at the end of a run: when the tools leave the content
    of the base copy alone and each copy of a locale in its place, the
    base copy holds what the package held and every locale of the list
    has its copy. *)
Lemma splitter_run_files (w : World) (text data : string) (rest : list Z) :
  preserves E (base_msi E app_name) ->
  (forall lcid, lcid ∈ rest -> keeps E (lcid_msi E app_name lcid)) ->
  files w !! (app_name +:+ ".wxs") = Some text ->
  lcids_of text = Return (1033 :: rest) ->
  files w !! filename = Some data ->
  filename <> base_msi E app_name ->
  1033 ∉ rest ->
  exists w',
    windows_installer_display_lang E app_name filename w
    = mkRes (Return tt) w'
        (ERead (app_name +:+ ".wxs")
         :: ECopy filename (base_msi E app_name)
         :: flat_map (turn_events sdk E app_name filename) rest)
    /\ files w' !! base_msi E app_name = Some data
    /\ (forall lcid, lcid ∈ rest ->
          is_Some (files w' !! lcid_msi E app_name lcid))
    /\ (forall lcid, lcid ∈ rest ->
          preserves E (lcid_msi E app_name lcid) ->
          files w' !! lcid_msi E app_name lcid = Some data).
Proof.
  intros Hpres Hkeep Hf Hl Hin Hne Hnot.
  rewrite (splitter_assert_holds E app_name filename w text rest Hf Hl).
  set (w0 := mkWorld (<[base_msi E app_name := data]> (files w))
                     (dirs w) (stdout w)).
  assert (Hloop : forall lcids (made : list Z) v,
            1033 ∉ made ->
            lcids ⊆ rest -> made ⊆ rest ->
            1033 ∉ lcids ->
            files v !! base_msi E app_name = Some data ->
            (forall l, l ∈ made -> is_Some (files v !! lcid_msi E app_name l)) ->
            (forall l, l ∈ made -> preserves E (lcid_msi E app_name l) ->
               files v !! lcid_msi E app_name l = Some data) ->
            exists w',
              for_each (per_lcid E app_name filename) lcids v
              = mkRes (Return tt) w'
                  (flat_map (turn_events sdk E app_name filename) lcids)
              /\ files w' !! base_msi E app_name = Some data
              /\ (forall l, l ∈ made ++ lcids ->
                    is_Some (files w' !! lcid_msi E app_name l))
              /\ (forall l, l ∈ made ++ lcids ->
                    preserves E (lcid_msi E app_name l) ->
                    files w' !! lcid_msi E app_name l = Some data)).
  { induction lcids as [|lcid lcids IH];
      intros made v Hd1 Hsub Hdsub Hn Hb Hs Hp.
    - exists v. rewrite app_nil_r. by repeat split.
    - apply not_elem_of_cons in Hn as [Hne1 Hn].
      assert (Hne' : lcid <> 1033) by congruence.
      assert (Hin_rest : lcid ∈ rest) by (apply Hsub; by left).
      pose proof (per_lcid_run lcid v data Hb Hne') as Hrun.
      cbn zeta in Hrun.
      set (v3 := (os_system E (embed_cmd sdk E filename lcid) _).2) in Hrun.
      assert (Hstep : forall (P : World -> Prop),
                (forall cmd x, P x -> P (os_system E cmd x).2) ->
                P (with_copy E app_name lcid data v) -> P v3).
      { intros P HP H0. subst v3. by do 3 apply HP. }
      destruct (IH (made ++ [lcid]) v3) as (w' & Hrun' & Hb' & Hs' & Hp').
      + rewrite not_elem_of_app, not_elem_of_cons. split; [done|].
        split; [done|apply not_elem_of_nil].
      + intros l Hl'. apply Hsub. by right.
      + intros l Hl'. apply elem_of_app in Hl' as [Hl'|Hl'];
          [by apply Hdsub|]. apply list_elem_of_singleton in Hl' as ->. done.
      + done.
      + apply (Hstep (fun x => files x !! base_msi E app_name = Some data)).
        * intros cmd x Hx. by rewrite Hpres.
        * unfold with_copy. cbn [files]. rewrite lookup_insert_ne; [done|].
          apply not_eq_sym, lcid_msi_ne_base. done.
      + intros l Hl'. apply elem_of_app in Hl' as [Hl'|Hl'].
        * apply (Hstep (fun x => is_Some (files x !! lcid_msi E app_name l))).
          -- intros cmd x. apply Hkeep. by apply Hdsub.
          -- unfold with_copy. cbn [files].
             destruct (decide (lcid_msi E app_name lcid
                               = lcid_msi E app_name l)) as [->|Hd].
             ++ rewrite lookup_insert_eq. eauto.
             ++ rewrite lookup_insert_ne by done. by apply Hs.
        * apply list_elem_of_singleton in Hl' as ->.
          apply (Hstep (fun x => is_Some (files x !! lcid_msi E app_name lcid))).
          -- intros cmd x. by apply Hkeep.
          -- unfold with_copy. cbn [files]. rewrite lookup_insert_eq. eauto.
      + intros l Hl' Hpl. apply elem_of_app in Hl' as [Hl'|Hl'].
        * apply (Hstep (fun x => files x !! lcid_msi E app_name l = Some data)).
          -- intros cmd x Hx. by rewrite Hpl.
          -- unfold with_copy. cbn [files].
             destruct (decide (lcid_msi E app_name lcid
                               = lcid_msi E app_name l)) as [->|Hd].
             ++ by rewrite lookup_insert_eq.
             ++ rewrite lookup_insert_ne by done. by apply Hp.
        * apply list_elem_of_singleton in Hl' as ->.
          apply (Hstep (fun x => files x !! lcid_msi E app_name lcid
                                 = Some data)).
          -- intros cmd x Hx. by rewrite Hpl.
          -- unfold with_copy. cbn [files]. by rewrite lookup_insert_eq.
      + exists w'. split.
        * cbn [for_each]. unfold bind at 1. rewrite Hrun.
          cbn [result world trace]. rewrite Hrun'. reflexivity.
        * split; [done|]. rewrite <- app_assoc in Hs', Hp'. by split. }
  destruct (Hloop rest [] w0) as (w' & Hrun & Hb & Hs & Hp); try done.
  { apply not_elem_of_nil. }
  { intros l Hl'. by apply elem_of_nil in Hl'. }
  { cbn. by rewrite lookup_insert_eq. }
  { intros l Hl'. by apply elem_of_nil in Hl'. }
  { intros l Hl'. by apply elem_of_nil in Hl'. }
  exists w'. split; [|by repeat split].
  unfold bind, emit, copyfile. cbn [result world trace].
  rewrite Hin, (proj2 (String.eqb_neq _ _) Hne).
  cbn [result world trace]. fold w0. rewrite Hrun. reflexivity.
Qed.

End Loop.

(** *** The loop where [SDKPATH] is not bound *)

(** One turn ends with the copy that fails or, once the copy is made,
    with the name that is not bound; no tool is called. *)
Lemma per_lcid_unbound E app_name filename (lcid : Z) (w : World) :
  sdkpath E = None ->
  (exists e, per_lcid E app_name filename lcid w = mkRes (Raise e) w []
             /\ (e = SameFileError (base_msi E app_name)
                 \/ e = FileNotFoundError (base_msi E app_name)))
  \/ (exists data,
        files w !! base_msi E app_name = Some data
        /\ per_lcid E app_name filename lcid w
           = mkRes (Raise (NameError "SDKPATH"))
                   (with_copy E app_name lcid data w)
                   [ECopy (base_msi E app_name) (lcid_msi E app_name lcid)]).
Proof.
  intros Hsdk. rewrite per_lcid_copy, Hsdk.
  destruct (files w !! base_msi E app_name) as [data|]; [|left; eauto].
  destruct (String.eqb _ _); [left; eauto|].
  right. exists data. split; reflexivity.
Qed.

Lemma per_lcid_name_error E app_name filename (lcid : Z) (w : World)
    (data : string) :
  sdkpath E = None ->
  files w !! base_msi E app_name = Some data ->
  lcid <> 1033 ->
  per_lcid E app_name filename lcid w
  = mkRes (Raise (NameError "SDKPATH"))
          (with_copy E app_name lcid data w)
          [ECopy (base_msi E app_name) (lcid_msi E app_name lcid)].
Proof.
  intros Hsdk Hb Hne. rewrite per_lcid_copy, Hsdk, Hb.
  by rewrite (proj2 (String.eqb_neq _ _) (lcid_msi_ne_base E app_name lcid Hne)).
Qed.

Lemma for_each_unbound E app_name filename (lcids : list Z) (w : World) :
  sdkpath E = None ->
  let r := for_each (per_lcid E app_name filename) lcids w in
  commands (trace r) = []
  /\ exists copied,
       copied `prefix_of` lcids
       /\ (length copied <= 1)%nat
       /\ copies (trace r)
          = map (fun lcid => (base_msi E app_name, lcid_msi E app_name lcid))
                copied.
Proof.
  intros Hsdk r. subst r. destruct lcids as [|lcid lcids].
  - split; [done|]. exists []. split; [done|]. split; [cbn; lia|done].
  - cbn [for_each]. unfold bind.
    destruct (per_lcid_unbound E app_name filename lcid w Hsdk)
      as [(e & -> & _)|(data & _ & ->)]; cbn [result world trace].
    + split; [done|]. exists []. split; [apply prefix_nil|].
      split; [cbn; lia|done].
    + split; [done|]. exists [lcid]. split; [apply prefix_cons, prefix_nil|].
      split; [cbn; lia|done].
Qed.

(** C5: as the module stands, the three copies are not made.  The
    global [SDKPATH] is bound in the body of the script only, and the
    body never calls the function; a caller that imported the module
    finds the name unbound.  With the list [1033, 1031, 1036] the run
    then copies the package to the name for 1033 and that copy to the
    name for 1031, and ends with the [NameError] of the first command
    line: no tool is called and the copy for 1036 is never made.  The
    two copies hold what the package held; the file with the name for
    1036 is as it was before the run. *)
Theorem splitter_two_copies_then_name_error E app_name filename w text data :
  sdkpath E = None ->
  joins_plainly (gettempdir E) app_name ->
  files w !! (app_name +:+ ".wxs") = Some text ->
  lcids_of text = Return [1033; 1031; 1036] ->
  files w !! filename = Some data ->
  filename <> base_msi E app_name ->
  let r := windows_installer_display_lang E app_name filename w in
  let tmp := gettempdir E in
  result r = Raise (NameError "SDKPATH")
  /\ copies (trace r)
     = [(filename, join tmp (app_name +:+ "_1033.msi"));
        (join tmp (app_name +:+ "_1033.msi"),
         join tmp (app_name +:+ "_1031.msi"))]
  /\ commands (trace r) = []
  /\ files (world r) !! join tmp (app_name +:+ "_1033.msi") = Some data
  /\ files (world r) !! join tmp (app_name +:+ "_1031.msi") = Some data
  /\ files (world r) !! join tmp (app_name +:+ "_1036.msi")
     = files w !! join tmp (app_name +:+ "_1036.msi").
Proof.
  intros Hsdk _ Hf Hl Hin Hne r tmp. subst r tmp.
  rewrite (splitter_assert_holds E app_name filename w text _ Hf Hl).
  set (w0 := mkWorld (<[base_msi E app_name := data]> (files w))
                     (dirs w) (stdout w)).
  assert (Hb0 : files w0 !! base_msi E app_name = Some data).
  { cbn. by rewrite lookup_insert_eq. }
  assert (Hrun : for_each (per_lcid E app_name filename) [1031; 1036] w0
                 = mkRes (Raise (NameError "SDKPATH"))
                         (with_copy E app_name 1031 data w0)
                         [ECopy (base_msi E app_name)
                                (lcid_msi E app_name 1031)]).
  { cbn [for_each]. unfold bind.
    by rewrite (per_lcid_name_error E app_name filename 1031 w0 data). }
  unfold bind, emit, copyfile. cbn [result world trace].
  rewrite Hin, (proj2 (String.eqb_neq _ _) Hne).
  cbn [result world trace]. fold w0. rewrite Hrun. subst w0.
  cbn [result world trace app copies commands with_copy files].
  change (join (gettempdir E) (app_name +:+ "_1033.msi"))
    with (base_msi E app_name).
  change (join (gettempdir E) (app_name +:+ "_1031.msi"))
    with (lcid_msi E app_name 1031).
  change (join (gettempdir E) (app_name +:+ "_1036.msi"))
    with (lcid_msi E app_name 1036).
  assert (H31 : lcid_msi E app_name 1031 <> base_msi E app_name).
  { apply not_eq_sym, lcid_msi_ne_base. done. }
  assert (H36 : lcid_msi E app_name 1036 <> base_msi E app_name).
  { apply not_eq_sym, lcid_msi_ne_base. done. }
  assert (H316 : lcid_msi E app_name 1031 <> lcid_msi E app_name 1036).
  { intros H. by apply lcid_msi_inj in H. }
  repeat split.
  - rewrite lookup_insert_ne by done. apply lookup_insert_eq.
  - apply lookup_insert_eq.
  - rewrite lookup_insert_ne by done. rewrite lookup_insert_ne by done. done.
Qed.

(** *** Hosts that differ in the exit statuses only *)

Lemma run_system_same E1 E2 cmd {A} (k : M A) w :
  (forall cmd w, (os_system E1 cmd w).2 = (os_system E2 cmd w).2) ->
  (run_system E1 cmd ;; k) w = (run_system E2 cmd ;; k) w.
Proof. intros H. by rewrite !bind_run_system, H. Qed.

Lemma bind_ext {A B} (m : M A) (k1 k2 : A -> M B) w :
  (forall a w', k1 a w' = k2 a w') -> (a <- m ;; k1 a) w = (a <- m ;; k2 a) w.
Proof.
  intros H. unfold bind. destruct (result (m w)); [|done]. by rewrite H.
Qed.

Lemma per_lcid_same E1 E2 app_name filename lcid w :
  same_effects E1 E2 ->
  per_lcid E1 app_name filename lcid w = per_lcid E2 app_name filename lcid w.
Proof.
  intros (Htmp & Hsdk & Hsys). unfold per_lcid, base_msi, lcid_msi, stamp_cmd,
    transform_cmd, embed_cmd. rewrite Htmp, Hsdk.
  apply bind_ext. intros _ w1. apply bind_ext. intros sdk1 w2.
  rewrite (run_system_same E1 E2 _ _ _ Hsys).
  apply bind_ext. intros _ w3. apply bind_ext. intros sdk2 w4.
  rewrite (run_system_same E1 E2 _ _ _ Hsys).
  apply bind_ext. intros _ w5. apply bind_ext. intros sdk3 w6.
  apply (run_system_same E1 E2 _ _ _ Hsys).
Qed.

Lemma for_each_same E1 E2 app_name filename (lcids : list Z) w :
  same_effects E1 E2 ->
  for_each (per_lcid E1 app_name filename) lcids w
  = for_each (per_lcid E2 app_name filename) lcids w.
Proof.
  intros H. revert w. induction lcids as [|lcid lcids IH]; intros w; [done|].
  cbn [for_each]. unfold bind. rewrite (per_lcid_same E1 E2 _ _ _ _ H).
  destruct (result _); [|done]. by rewrite IH.
Qed.

Lemma splitter_same E1 E2 app_name filename w :
  same_effects E1 E2 ->
  windows_installer_display_lang E1 app_name filename w
  = windows_installer_display_lang E2 app_name filename w.
Proof.
  intros H. unfold windows_installer_display_lang.
  apply bind_ext. intros text w1. apply bind_ext. intros lcids w2.
  apply bind_ext. intros _ w3. unfold base_msi. rewrite (proj1 H).
  apply bind_ext. intros _ w4. by apply for_each_same.
Qed.

(** Where [SDKPATH] is not bound no tool is ever called. *)
Lemma splitter_unbound_no_commands E app_name filename w :
  sdkpath E = None ->
  commands (trace (windows_installer_display_lang E app_name filename w)) = [].
Proof.
  intros Hsdk.
  destruct (splitter_cases E app_name filename w)
    as [[_ ->]|[(text & e & _ & _ & ->)
       |[(text & first & rest & _ & _ & _ & ->)
        |(text & rest & Hf & Hl & ->)]]]; try done.
  rewrite splitter_copy.
  destruct (files w !! filename) as [data|]; [|done].
  destruct (String.eqb _ _); [done|].
  cbn [trace commands].
  apply (for_each_unbound E app_name filename rest _ Hsdk).
Qed.

(** C4: the exit statuses of the tools have no part in what the
    function does.  Two hosts whose tools act alike on the files but
    answer with different statuses give the same run: the same result,
    the same final world, the same trace.  Where [SDKPATH] is not bound
    there is no status to look at, since no tool is called.  Where it
    is bound and the run of the one host goes through all locales,
    calling the three tools for each identifier after the first, so
    does the run of the other, whatever statuses its tools answer
    with. *)
Theorem splitter_ignores_exit_status E1 E2 app_name filename w :
  same_effects E1 E2 ->
  windows_installer_display_lang E1 app_name filename w
  = windows_installer_display_lang E2 app_name filename w
  /\ (sdkpath E2 = None ->
      commands (trace (windows_installer_display_lang E2 app_name filename w))
      = [])
  /\ (forall sdk text rest,
        sdkpath E1 = Some sdk ->
        joins_plainly (gettempdir E1) app_name ->
        files w !! (app_name +:+ ".wxs") = Some text ->
        lcids_of text = Return (1033 :: rest) ->
        is_Some (files w !! filename) ->
        filename <> base_msi E1 app_name ->
        1033 ∉ rest ->
        keeps E1 (base_msi E1 app_name) ->
        let r := windows_installer_display_lang E2 app_name filename w in
        result r = Return tt
        /\ commands (trace r)
           = flat_map (tool_cmds sdk E1 app_name filename) rest
        /\ forall lcid, lcid ∈ rest ->
             ESystem (stamp_cmd sdk E2 app_name lcid) ∈ trace r
             /\ ESystem (transform_cmd sdk E2 app_name lcid) ∈ trace r
             /\ ESystem (embed_cmd sdk E2 filename lcid) ∈ trace r).
Proof.
  intros Hsame. split; [by apply splitter_same|].
  split; [apply splitter_unbound_no_commands|].
  intros sdk text rest Hsdk _ Hf Hl Hin Hne Hnot Hkeep r. subst r.
  rewrite <- (splitter_same E1 E2 _ _ _ Hsame).
  destruct (splitter_run E1 app_name filename sdk Hsdk w text rest
              Hkeep Hf Hl Hin Hne Hnot) as (w' & ->).
  cbn [result trace commands]. split; [done|].
  split; [apply commands_turns|].
  intros lcid Hlcid.
  assert (Hsub : forall ev, ev ∈ turn_events sdk E1 app_name filename lcid ->
            ev ∈ ERead (app_name +:+ ".wxs")
                 :: ECopy filename (base_msi E1 app_name)
                 :: flat_map (turn_events sdk E1 app_name filename) rest).
  { intros ev Hev. do 2 apply list_elem_of_further.
    apply list_elem_of_In, in_flat_map. exists lcid.
    by rewrite <- !list_elem_of_In. }
  unfold stamp_cmd, transform_cmd, embed_cmd. rewrite <- (proj1 Hsame).
  repeat split; apply Hsub; unfold turn_events, tool_cmds; cbn [map];
    rewrite !elem_of_cons; tauto.
Qed.

(** X21: where [SDKPATH] is bound the three copies are made and are
    there at the end.  With the list [1033, 1031, 1036], a package that
    is not the base copy itself, and tools that leave the content of
    the base copy alone and the two copies of the locales in their
    place, the run returns, it makes the three copies and no other, the
    base copy holds what the package held, and the copies for 1031 and
    1036 exist; a copy that the tools leave as it is holds what the
    package held, too. *)
Theorem splitter_copies_in_tempdir E app_name filename w text data sdk :
  sdkpath E = Some sdk ->
  joins_plainly (gettempdir E) app_name ->
  files w !! (app_name +:+ ".wxs") = Some text ->
  lcids_of text = Return [1033; 1031; 1036] ->
  files w !! filename = Some data ->
  filename <> base_msi E app_name ->
  preserves E (base_msi E app_name) ->
  keeps E (lcid_msi E app_name 1031) ->
  keeps E (lcid_msi E app_name 1036) ->
  let r := windows_installer_display_lang E app_name filename w in
  let tmp := gettempdir E in
  result r = Return tt
  /\ copies (trace r)
     = [(filename, join tmp (app_name +:+ "_1033.msi"));
        (join tmp (app_name +:+ "_1033.msi"),
         join tmp (app_name +:+ "_1031.msi"));
        (join tmp (app_name +:+ "_1033.msi"),
         join tmp (app_name +:+ "_1036.msi"))]
  /\ files (world r) !! join tmp (app_name +:+ "_1033.msi") = Some data
  /\ is_Some (files (world r) !! join tmp (app_name +:+ "_1031.msi"))
  /\ is_Some (files (world r) !! join tmp (app_name +:+ "_1036.msi"))
  /\ (preserves E (lcid_msi E app_name 1031) ->
      files (world r) !! join tmp (app_name +:+ "_1031.msi") = Some data)
  /\ (preserves E (lcid_msi E app_name 1036) ->
      files (world r) !! join tmp (app_name +:+ "_1036.msi") = Some data).
Proof.
  intros Hsdk _ Hf Hl Hin Hne Hpres Hk31 Hk36 r tmp. subst r tmp.
  assert (Hnot : 1033 ∉ [1031; 1036]).
  { rewrite !not_elem_of_cons. repeat split; try done. apply not_elem_of_nil. }
  assert (Hkeep : forall lcid, lcid ∈ [1031; 1036] ->
                    keeps E (lcid_msi E app_name lcid)).
  { intros lcid. rewrite !elem_of_cons. intros [->|[->|H]]; try done.
    by apply elem_of_nil in H. }
  destruct (splitter_run_files E app_name filename sdk Hsdk w text data
              [1031; 1036] Hpres Hkeep Hf Hl Hin Hne Hnot)
    as (w' & -> & Hb & Hs & Hp).
  cbn [result world trace copies flat_map turn_events tool_cmds map app].
  split; [done|]. split; [done|]. split; [exact Hb|].
  split; [apply (Hs 1031); by left|].
  split; [apply (Hs 1036); right; by left|].
  split; intros Hp'.
  - apply (Hp 1031); [by left|done].
  - apply (Hp 1036); [right; by left|done].
Qed.

(** ** Reading the identifiers from the descriptor *)

(** *** Characters *)

Lemma all_chars_app (f : ascii -> bool) (a b : string) :
  all_chars f (a +:+ b) = all_chars f a && all_chars f b.
Proof.
  induction a as [|c a IH]; [done|].
  rewrite app_str_cons. cbn. by rewrite IH, andb_assoc.
Qed.

Lemma all_chars_impl (f h : ascii -> bool) (s : string) :
  (forall c, f c = true -> h c = true) ->
  all_chars f s = true -> all_chars h s = true.
Proof.
  intros Hfh. induction s as [|c s IH]; [done|]. cbn.
  rewrite !andb_true_iff. intros [Hc Hs]. split; [by apply Hfh|by apply IH].
Qed.

Lemma literal_char_value (c : ascii) :
  literal_char c = true -> value_char c = true.
Proof. by destruct c as [[] [] [] [] [] [] [] []]. Qed.

Lemma literal_char_not_comma (c : ascii) :
  literal_char c = true -> not_char "," c = true.
Proof. by destruct c as [[] [] [] [] [] [] [] []]. Qed.

Lemma uint_chars (d : Decimal.uint) :
  all_chars is_digit (NilEmpty.string_of_uint d) = true.
Proof. induction d; cbn; by rewrite ?IHd. Qed.

Lemma str_of_int_chars (n : Z) : all_chars literal_char (str_of_int n) = true.
Proof.
  assert (H : forall d, all_chars literal_char (NilZero.string_of_uint d)
                        = true).
  { intros d.
    apply (all_chars_impl is_digit); [by intros c; unfold literal_char; intros ->|].
    destruct d; try apply (uint_chars (_ _)). done. }
  unfold str_of_int. destruct (Z.to_int n); cbn [NilZero.string_of_int];
    [apply H|]. cbn [all_chars]. by rewrite H.
Qed.

Lemma str_of_int_nonempty (n : Z) : str_of_int n <> EmptyString.
Proof.
  unfold str_of_int. destruct n as [|p|p]; cbn; try done.
  all: pose proof (DecimalPos.Unsigned.to_uint_nonnil p) as Hp.
  all: by destruct (Pos.to_uint p).
Qed.

(** *** [int] after [str] *)

Lemma scan_digits_digit (c : ascii) (v : Z) (s : string) (acc : Z) (n : nat)
    (b : bool) :
  digit_value c = Some v ->
  scan_digits (String c s) acc n b = scan_digits s (10 * acc + v) (S n) false.
Proof. intros H. cbn [scan_digits]. by rewrite H. Qed.

Lemma digit_chars_scan (d : Decimal.uint) (acc : Z) (n : nat) :
  scan_digits (NilEmpty.string_of_uint d) acc n false
  = Some (acc * 10 ^ Z.of_N (DecimalPos.Unsigned.usize d)
          + Z.of_N (Pos.of_uint d),
          (n + String.length (NilEmpty.string_of_uint d))%nat,
          EmptyString).
Proof.
  rewrite DecimalPos.Unsigned.of_uint_alt.
  revert acc n. induction d; intros acc n.
  1: { cbn. do 3 f_equal; lia. }
  all: cbn [NilEmpty.string_of_uint].
  all: erewrite scan_digits_digit by reflexivity.
  all: rewrite IHd.
  all: match goal with
       | |- context [Z.of_N (code ?c) - 48] =>
           let v := eval vm_compute in (Z.of_N (code c) - 48) in
           change (Z.of_N (code c) - 48) with v
       end.
  all: set (V := DecimalPos.Unsigned.of_lu (Decimal.rev d)).
  all: unfold Decimal.rev;
       cbn [Decimal.revapp DecimalPos.Unsigned.usize String.length].
  all: rewrite DecimalPos.Unsigned.of_lu_revapp.
  all: fold V.
  all: cbn [DecimalPos.Unsigned.of_lu].
  all: rewrite N2Z.inj_succ, Z.pow_succ_r by lia.
  all: rewrite N2Z.inj_add, N2Z.inj_mul, N2Z.inj_pow.
  all: do 3 f_equal; lia.
Qed.

Lemma int_digits_uint (sign : Z) (d : Decimal.uint) :
  d <> Decimal.Nil ->
  (String.length (NilEmpty.string_of_uint d) <= int_max_str_digits)%nat ->
  int_digits sign (NilEmpty.string_of_uint d)
  = Some (sign * Z.of_N (Pos.of_uint d)).
Proof.
  intros Hd Hlen. unfold int_digits.
  assert (Hus : startswith "_" (NilEmpty.string_of_uint d) = false)
    by by destruct d.
  rewrite Hus, digit_chars_scan. cbn [Nat.add].
  assert (Hpos : (String.length (NilEmpty.string_of_uint d) =? 0)%nat = false).
  { apply Nat.eqb_neq. by destruct d. }
  rewrite Hpos, (proj2 (Nat.ltb_ge _ _) Hlen). cbn [skip_spaces].
  do 2 f_equal.
Qed.

Lemma py_int_digit_first (c : ascii) (s : string) :
  is_digit c = true -> py_int (String c s) = int_digits 1 (String c s).
Proof. by destruct c as [[] [] [] [] [] [] [] []]. Qed.

Lemma py_int_str_of_int (n : Z) :
  (decimal_digits n <= int_max_str_digits)%nat ->
  py_int (str_of_int n) = Some n.
Proof.
  unfold decimal_digits, str_of_int.
  assert (Hu : forall p,
            NilZero.string_of_uint (Pos.to_uint p)
            = NilEmpty.string_of_uint (Pos.to_uint p)).
  { intros p. pose proof (DecimalPos.Unsigned.to_uint_nonnil p).
    by destruct (Pos.to_uint p). }
  assert (Hpos : forall p,
            (String.length (NilEmpty.string_of_uint (Pos.to_uint p))
             <= int_max_str_digits)%nat ->
            py_int (NilEmpty.string_of_uint (Pos.to_uint p)) = Some (Z.pos p)).
  { intros p Hlen.
    pose proof (DecimalPos.Unsigned.to_uint_nonnil p) as Hnn.
    pose proof (uint_chars (Pos.to_uint p)) as Hch.
    pose proof (int_digits_uint 1 _ Hnn Hlen) as Hint.
    rewrite DecimalPos.Unsigned.of_to in Hint.
    destruct (NilEmpty.string_of_uint (Pos.to_uint p)) as [|c s] eqn:Hs.
    - by destruct (Pos.to_uint p).
    - cbn in Hch. apply andb_true_iff in Hch as [Hc _].
      by rewrite (py_int_digit_first c s Hc), Hint. }
  destruct n as [|p|p]; cbv [Z.abs Z.to_int NilZero.string_of_int].
  - intros _. reflexivity.
  - rewrite Hu. apply Hpos.
  - rewrite !Hu. intros Hlen.
    pose proof (DecimalPos.Unsigned.to_uint_nonnil p) as Hnn.
    change (py_int (String "-" ?s)) with (int_digits (-1) s).
    rewrite (int_digits_uint (-1) _ Hnn Hlen),
      DecimalPos.Unsigned.of_to. f_equal.
Qed.

Lemma ints_str_of_int (ids : list Z) :
  Forall (fun id => (decimal_digits id <= int_max_str_digits)%nat) ids ->
  ints (map str_of_int ids) = Return ids.
Proof.
  induction 1 as [|id ids Hid _ IH]; [done|]. cbn.
  by rewrite (py_int_str_of_int id Hid), IH.
Qed.

(** *** [split] after joining *)

Lemma split_whole (sep : ascii) (piece : string) :
  all_chars (not_char sep) piece = true -> split sep piece = [piece].
Proof.
  induction piece as [|c piece IH]; [done|]. cbn.
  intros H. apply andb_true_iff in H as [Hc Hp]. unfold not_char in Hc.
  apply negb_true_iff in Hc. rewrite Hc, (IH Hp). done.
Qed.

Lemma split_first (sep : ascii) (piece rest : string) :
  all_chars (not_char sep) piece = true ->
  split sep (piece +:+ String sep rest) = piece :: split sep rest.
Proof.
  induction piece as [|c piece IH].
  - intros _. rewrite app_str_nil_l. cbn. by rewrite Ascii.eqb_refl.
  - cbn. intros H. apply andb_true_iff in H as [Hc Hp]. unfold not_char in Hc.
    apply negb_true_iff in Hc. rewrite app_str_cons. cbn.
    by rewrite Hc, (IH Hp).
Qed.

Lemma concat_cons (sep x y : string) (l : list string) :
  String.concat sep (x :: y :: l) = x +:+ sep +:+ String.concat sep (y :: l).
Proof. reflexivity. Qed.

Lemma split_concat (sep : ascii) (pieces : list string) :
  pieces <> [] ->
  Forall (fun piece => all_chars (not_char sep) piece = true) pieces ->
  split sep (String.concat (String sep EmptyString) pieces) = pieces.
Proof.
  intros Hne Hall. induction Hall as [|piece pieces Hp Hall IH]; [done|].
  destruct pieces as [|piece' pieces].
  - cbn. by apply split_whole.
  - rewrite concat_cons.
    change (String sep EmptyString +:+ ?s) with (String sep s).
    rewrite (split_first _ _ _ Hp), IH; done.
Qed.

(** *** The search *)

Lemma rmatch_seq {X} (r1 r2 : regex) (s : string) (g : option string)
    (k : cont X) :
  rmatch (RSeq r1 r2) s g k = rmatch r1 s g (fun s' g' => rmatch r2 s' g' k).
Proof. reflexivity. Qed.

Lemma rmatch_char {X} (c : ascii) (s : string) (g : option string)
    (k : cont X) :
  rmatch (RChar c) (String c s) g k = k s g.
Proof. cbn. by rewrite Ascii.eqb_refl. Qed.

Lemma startswith_app (p s : string) : startswith p (p +:+ s) = true.
Proof.
  induction p as [|c p IH]; [done|]. rewrite app_str_cons. cbn.
  by rewrite Ascii.eqb_refl, IH.
Qed.

Lemma rmatch_lit {X} (p s : string) (g : option string) (k : cont X) :
  rmatch (lit p) s g k
  = if startswith p s then k (drop_str (String.length p) s) g else None.
Proof.
  revert s. induction p as [|c p IH]; intros s; [done|].
  cbn [lit]. rewrite rmatch_seq. destruct s as [|b s]; [done|].
  cbn [rmatch startswith String.length drop_str].
  rewrite (Ascii.eqb_sym b c). destruct (Ascii.eqb c b); [|done].
  apply IH.
Qed.

(** Where the word is missing the pattern does not match. *)
Lemma languages_pattern_needs_word {X} (s : string) (g : option string)
    (k : cont X) :
  startswith "Languages" s = false -> rmatch languages_pattern s g k = None.
Proof.
  intros H. unfold languages_pattern. by rewrite rmatch_seq, rmatch_lit, H.
Qed.

Lemma re_search_skip (r : regex) (before rest : string) :
  (forall i, (i < String.length before)%nat ->
     rmatch r (drop_str i (before +:+ rest)) None (fun _ g => Some g) = None) ->
  re_search r (before +:+ rest) = re_search r rest.
Proof.
  induction before as [|c before IH]; intros H; [done|].
  rewrite app_str_cons. cbn [re_search].
  pose proof (H 0%nat ltac:(cbn; lia)) as H0. cbn [drop_str] in H0.
  rewrite app_str_cons in H0. rewrite H0.
  apply IH. intros i Hi. apply (H (S i)). cbn. lia.
Qed.

Lemma star_loop_S {X} (m : matcher X) (fuel : nat) (s : string)
    (g : option string) (k : cont X) :
  star_loop m (S fuel) s g k
  = match m s g (fun s' g' =>
                   if shorter s' s then star_loop m fuel s' g' k else None) with
    | Some x => Some x
    | None => k s g
    end.
Proof. reflexivity. Qed.

Lemma plus_lazy_loop_eq {X} (m : matcher X) (fuel : nat) (s : string)
    (g : option string) (k : cont X) :
  plus_lazy_loop m fuel s g k
  = m s g (fun s' g' =>
             match k s' g' with
             | Some x => Some x
             | None =>
                 match fuel with
                 | O => None
                 | S fuel' =>
                     if shorter s' s then plus_lazy_loop m fuel' s' g' k
                     else None
                 end
             end).
Proof. by destruct fuel. Qed.

Lemma rmatch_space {X} (c : ascii) (s : string) (g : option string)
    (k : cont X) :
  rmatch RSpace (String c s) g k = if isspace c then k s g else None.
Proof. reflexivity. Qed.

Lemma rmatch_any {X} (c : ascii) (s : string) (g : option string)
    (k : cont X) :
  rmatch RAny (String c s) g k
  = if Ascii.eqb c newline then None else k s g.
Proof. reflexivity. Qed.

Lemma rmatch_star {X} (r : regex) (s : string) (g : option string)
    (k : cont X) :
  rmatch (RStar r) s g k = star_loop (rmatch r) (String.length s) s g k.
Proof. reflexivity. Qed.

Lemma rmatch_group_plus_lazy {X} (r : regex) (s : string) (g : option string)
    (k : cont X) :
  rmatch (RGroup (RPlusLazy r)) s g k
  = plus_lazy_loop (rmatch r) (String.length s) s g
      (fun s' _ =>
         k s' (Some (take_str (String.length s - String.length s') s))).
Proof. reflexivity. Qed.

Lemma star_loop_space {X} (fuel : nat) (ws : string) (c : ascii)
    (rest : string) (g : option string) (k : cont X) (x : X) :
  (String.length ws <= fuel)%nat ->
  all_chars isspace ws = true ->
  isspace c = false ->
  k (String c rest) g = Some x ->
  star_loop (rmatch RSpace) fuel (ws +:+ String c rest) g k = Some x.
Proof.
  intros Hfuel Hws Hc Hk. revert fuel Hfuel.
  induction ws as [|a ws IH]; intros fuel Hfuel.
  - rewrite app_str_nil_l. destruct fuel as [|fuel]; [done|].
    by rewrite star_loop_S, rmatch_space, Hc.
  - cbn in Hws. apply andb_true_iff in Hws as [Ha Hws].
    destruct fuel as [|fuel]; [cbn in Hfuel; lia|].
    rewrite app_str_cons, star_loop_S, rmatch_space, Ha.
    assert (Hsh : shorter (ws +:+ String c rest)
                          (String a (ws +:+ String c rest)) = true).
    { unfold shorter. apply Nat.ltb_lt. cbn. lia. }
    rewrite Hsh, (IH Hws fuel); [done|]. cbn in Hfuel. lia.
Qed.

Lemma value_char_spec (c : ascii) :
  value_char c = true ->
  Ascii.eqb c newline = false /\ Ascii.eqb c dquote = false.
Proof.
  unfold value_char. rewrite andb_true_iff, !negb_true_iff. done.
Qed.

Lemma plus_lazy_value {X} (fuel : nat) (c : ascii) (v rest : string)
    (g : option string) (k : cont X) (x : X) :
  (String.length v <= fuel)%nat ->
  all_chars value_char (String c v) = true ->
  (forall a s' g', Ascii.eqb a dquote = false -> k (String a s') g' = None) ->
  k rest g = Some x ->
  plus_lazy_loop (rmatch RAny) fuel (String c v +:+ rest) g k = Some x.
Proof.
  intros Hfuel Hv Hfail Hk. revert c fuel Hfuel Hv.
  induction v as [|c' v IH]; intros c fuel Hfuel Hv.
  - cbn in Hv. rewrite andb_true_r in Hv.
    apply value_char_spec in Hv as [Hnl _].
    rewrite app_str_cons, app_str_nil_l.
    by rewrite plus_lazy_loop_eq, rmatch_any, Hnl, Hk.
  - cbn [all_chars] in Hv. apply andb_true_iff in Hv as [Hc Hv].
    apply value_char_spec in Hc as [Hnl _].
    pose proof Hv as Hv'. cbn [all_chars] in Hv'.
    apply andb_true_iff in Hv' as [Hc' _].
    apply value_char_spec in Hc' as [_ Hq].
    destruct fuel as [|fuel]; [cbn in Hfuel; lia|].
    rewrite !app_str_cons, plus_lazy_loop_eq, rmatch_any, Hnl.
    rewrite (Hfail c' _ _ Hq).
    assert (Hsh : shorter (String c' (v +:+ rest))
                          (String c (String c' (v +:+ rest))) = true).
    { unfold shorter. apply Nat.ltb_lt. cbn. lia. }
    rewrite Hsh, <- app_str_cons. apply IH; [cbn in Hfuel; lia|done].
Qed.

(** The pattern on a text that begins with the attribute. *)
Lemma languages_pattern_match (ws1 ws2 value after : string) :
  all_chars isspace ws1 = true ->
  all_chars isspace ws2 = true ->
  value <> EmptyString ->
  all_chars value_char value = true ->
  rmatch languages_pattern
    ("Languages" +:+ ws1 +:+ "=" +:+ ws2 +:+ q +:+ value +:+ q +:+ after)
    None (fun _ g => Some g)
  = Some (Some value).
Proof.
  intros Hws1 Hws2 Hne Hval. unfold languages_pattern, q.
  rewrite !(app_str_cons _ EmptyString), !app_str_nil_l.
  rewrite rmatch_seq, rmatch_lit, startswith_app, drop_str_app.
  rewrite rmatch_seq, rmatch_star.
  apply star_loop_space; [rewrite length_app_str; lia|done|done|].
  rewrite rmatch_seq, rmatch_char, rmatch_seq, rmatch_star.
  apply star_loop_space; [rewrite length_app_str; lia|done|done|].
  rewrite rmatch_seq, rmatch_char, rmatch_seq.
  destruct value as [|c v]; [done|].
  rewrite rmatch_group_plus_lazy.
  apply plus_lazy_value.
  - rewrite app_str_cons. cbn. rewrite length_app_str. lia.
  - done.
  - intros a s' g' Ha. cbn [rmatch]. by rewrite Ha.
  - cbv beta. rewrite rmatch_char. do 2 f_equal.
    rewrite length_app_str, Nat.add_sub. apply take_str_app.
Qed.

(** The search on a descriptor: what comes before the attribute is
    skipped, and group 1 is the value between the quotes. *)
Lemma re_search_descriptor (before ws1 ws2 value after : string) :
  all_chars isspace ws1 = true ->
  all_chars isspace ws2 = true ->
  value <> EmptyString ->
  all_chars value_char value = true ->
  not_before (String.length before)
             (descriptor before ws1 ws2 value after) ->
  re_search languages_pattern (descriptor before ws1 ws2 value after)
  = Some (Some value).
Proof.
  intros Hws1 Hws2 Hne Hval Hfirst. unfold descriptor in *.
  rewrite re_search_skip.
  - destruct ("Languages" +:+ ws1 +:+ "=" +:+ ws2 +:+ q +:+ value +:+ q
              +:+ after) eqn:Htext; cbn [re_search];
      rewrite <- Htext, languages_pattern_match; done.
  - intros i Hi. apply languages_pattern_needs_word. by apply Hfirst.
Qed.

Lemma separated_chars (f : ascii -> bool) (sep : ascii) (ids : list Z) :
  (forall c, literal_char c = true -> f c = true) ->
  f sep = true ->
  all_chars f (separated (String sep EmptyString) ids) = true.
Proof.
  intros Hlit Hsep. unfold separated.
  induction ids as [|id ids IH]; [done|].
  pose proof (all_chars_impl _ f _ Hlit (str_of_int_chars id)) as Hid.
  destruct ids as [|id' ids]; [done|].
  cbn [map]. rewrite concat_cons, !all_chars_app, Hid. cbn [all_chars andb].
  rewrite Hsep. exact IH.
Qed.

Lemma separated_nonempty (sep : string) (ids : list Z) :
  ids <> [] -> separated sep ids <> EmptyString.
Proof.
  unfold separated. destruct ids as [|id ids]; [done|]. intros _ H.
  apply (str_of_int_nonempty id).
  destruct ids as [|id' ids]; [done|].
  cbn [map] in H. rewrite concat_cons in H.
  by destruct (str_of_int id).
Qed.

Lemma split_separated (ids : list Z) :
  ids <> [] -> split "," (separated "," ids) = map str_of_int ids.
Proof.
  intros Hne. unfold separated. apply split_concat.
  - by destruct ids.
  - apply Forall_forall. intros piece Hin.
    apply list_elem_of_fmap in Hin as (id & -> & _).
    apply (all_chars_impl literal_char); [apply literal_char_not_comma|].
    apply str_of_int_chars.
Qed.

(** C7, as amended: a descriptor whose Languages attribute holds
    integer identifiers in decimal, of at most 4300 digits each and
    separated by commas, is parsed into the full list of identifiers.
    White space may stand around the equals sign, and the attribute is
    the first place in the text where the word Languages stands. *)
Theorem lcids_of_comma_separated (before ws1 ws2 after : string)
    (ids : list Z) :
  ids <> [] ->
  Forall (fun id => (decimal_digits id <= int_max_str_digits)%nat) ids ->
  all_chars isspace ws1 = true ->
  all_chars isspace ws2 = true ->
  not_before (String.length before)
             (descriptor before ws1 ws2 (separated "," ids) after) ->
  lcids_of (descriptor before ws1 ws2 (separated "," ids) after)
  = Return ids.
Proof.
  intros Hne Hdigits Hws1 Hws2 Hfirst. unfold lcids_of.
  rewrite re_search_descriptor; try done.
  - rewrite (split_separated ids Hne). by apply ints_str_of_int.
  - by apply separated_nonempty.
  - apply separated_chars; [apply literal_char_value|done].
Qed.

(** C7 as the specification words it: identifiers separated by semicolons are
    not parsed.  The value is not split at the semicolon, the conversion
    of the whole value fails, and the function ends with that error
    before it has copied anything. *)
Lemma semicolon_separated_not_parsed :
  let text := sample_wxs (separated ";" [1033; 1031]) in
  let r := windows_installer_display_lang sample_env "EDMC" "EDMC.msi"
             (sample_world text sample_listing) in
  lcids_of text = Raise (ValueError "1033;1031")
  /\ result r = Raise (ValueError "1033;1031")
  /\ copies (trace r) = [].
Proof. vm_compute. by repeat split. Qed.

(** ** The theorems at sample inputs *)

Lemma sample_env_supported : ~ unsupported sample_env.
Proof. apply (bool_decide_eq_false_1 _). vm_compute. reflexivity. Qed.

Lemma newer_env_supported : ~ unsupported newer_env.
Proof. apply (bool_decide_eq_false_1 _). vm_compute. reflexivity. Qed.

Example system_check_sample :
  let r := system_check sample_env "dist.win32"
             (sample_world EmptyString sample_listing) in
  result r = Return ".gitversion"
  /\ trace r = [EWrite ".gitversion" "abc1234";
                EPrint "Git short hash: abc1234";
                ERmtree "dist.win32"]
  /\ dirs (world r) !! "dist.win32" = None
  /\ files (world r) !! ".gitversion" = Some "abc1234".
Proof. vm_compute. by repeat split. Qed.

Example system_check_dot :
  let r := system_check sample_env "."
             (mkWorld ∅ {[ "." := ["build.py"] ]} []) in
  result r = Return ".gitversion"
  /\ trace r = [EWrite ".gitversion" "abc1234";
                EPrint "Git short hash: abc1234"].
Proof. vm_compute. by split. Qed.

Example system_check_linux :
  system_check linux_env "dist.win32" (sample_world EmptyString sample_listing)
  = mkRes (Raise (SystemExit "Unsupported platform linux"))
          (sample_world EmptyString sample_listing) [].
Proof. reflexivity. Qed.

Lemma generate_data_files_l10n_witness :
  exists top entry fdevids plugins,
    result (generate_data_files "EDMC" ".gitversion"
              (sample_world EmptyString sample_listing))
    = Return [top; ("L10n", entry); fdevids; plugins]
    /\ (forall p,
          p ∈ entry <->
          exists x, x ∈ sample_listing /\ has_suffix ".strings" x
                    /\ p = join "L10n" x)
    /\ entry = map (join "L10n")
                   (List.filter (endswith ".strings") sample_listing)
    /\ (sample_listing ≡ₚ ["de.strings"; "fr.strings"; "readme.txt"] ->
        entry ≡ₚ ["L10n\de.strings"; "L10n\fr.strings"]).
Proof.
  apply (generate_data_files_l10n "EDMC" ".gitversion"
           (sample_world EmptyString sample_listing) sample_listing).
  reflexivity.
Defined.

Lemma readme_no_string_table (x : string) :
  x ∈ ["readme.txt"; "notes"] -> ~ has_suffix ".strings" x.
Proof.
  rewrite !elem_of_cons. intros [->|[->|H]].
  - by apply endswith_false.
  - by apply endswith_false.
  - by apply elem_of_nil in H.
Qed.

Lemma generate_data_files_no_strings_witness :
  generate_data_files "EDMC" ".gitversion"
    (sample_world EmptyString ["readme.txt"; "notes"])
  = mkRes
      (Return [
         (EmptyString,
          [".gitversion"; "WinSparkle.dll"; "WinSparkle.pdb";
           "EUROCAPS.TTF"; "ChangeLog.md"; "snd_good.wav"; "snd_bad.wav";
           "modules.p"; "ships.p";
           "EDMC.VisualElementsManifest.xml";
           "EDMC.ico";
           "EDMarketConnector - TRACE.bat";
           "EDMarketConnector - localserver-auth.bat";
           "EDMarketConnector - reset-ui.bat"]);
         ("L10n", []);
         ("FDevIDs",
          ["FDevIDs\commodity.csv"; "FDevIDs\rare_commodity.csv"]);
         ("plugins",
          ["plugins/coriolis.py"; "plugins/eddn.py"; "plugins/edsm.py";
           "plugins/edsy.py"; "plugins/inara.py"])])
      (sample_world EmptyString ["readme.txt"; "notes"])
      [EListdir "L10n"].
Proof.
  apply (generate_data_files_no_strings "EDMC" ".gitversion"
           (sample_world EmptyString ["readme.txt"; "notes"])
           ["readme.txt"; "notes"]).
  - reflexivity.
  - exact readme_no_string_table.
Defined.

Lemma splitter_no_match_witness :
  let w := sample_world "<Wix Language=1033 />" sample_listing in
  let r := windows_installer_display_lang sample_env "EDMC" "EDMC.msi" w in
  result r = Raise AttributeError
  /\ trace r = [ERead "EDMC.wxs"]
  /\ copies (trace r) = []
  /\ commands (trace r) = []
  /\ world r = w.
Proof.
  apply (splitter_no_match sample_env "EDMC" "EDMC.msi"
           (sample_world "<Wix Language=1033 />" sample_listing)
           "<Wix Language=1033 />").
  - reflexivity.
  - vm_compute. reflexivity.
Defined.

Lemma splitter_wrong_default_witness :
  let w := sample_world (sample_wxs "1031,1033") sample_listing in
  let r := windows_installer_display_lang sample_env "EDMC" "EDMC.msi" w in
  (exists msg, result r = Raise (AssertionError msg))
  /\ trace r = [ERead "EDMC.wxs"]
  /\ copies (trace r) = []
  /\ world r = w.
Proof.
  apply (splitter_wrong_default sample_env "EDMC" "EDMC.msi"
           (sample_world (sample_wxs "1031,1033") sample_listing)
           (sample_wxs "1031,1033") [1031; 1033]).
  - reflexivity.
  - vm_compute. reflexivity.
  - discriminate.
Defined.

Lemma sample_env_keeps (path : string) : keeps sample_env path.
Proof. intros cmd w H. exact H. Qed.

Lemma sample_joins_plainly : joins_plainly "C:\Temp" "EDMC".
Proof. by repeat split. Qed.

Lemma splitter_two_copies_then_name_error_witness :
  let w := sample_world (sample_wxs "1033,1031,1036") sample_listing in
  let r := windows_installer_display_lang import_env "EDMC" "EDMC.msi" w in
  result r = Raise (NameError "SDKPATH")
  /\ copies (trace r)
     = [("EDMC.msi", "C:\Temp\EDMC_1033.msi");
        ("C:\Temp\EDMC_1033.msi", "C:\Temp\EDMC_1031.msi")]
  /\ commands (trace r) = []
  /\ files (world r) !! "C:\Temp\EDMC_1033.msi" = Some "package"
  /\ files (world r) !! "C:\Temp\EDMC_1031.msi" = Some "package"
  /\ files (world r) !! "C:\Temp\EDMC_1036.msi" = None.
Proof.
  apply (splitter_two_copies_then_name_error import_env "EDMC" "EDMC.msi"
           (sample_world (sample_wxs "1033,1031,1036") sample_listing)
           (sample_wxs "1033,1031,1036") "package").
  - reflexivity.
  - exact sample_joins_plainly.
  - reflexivity.
  - vm_compute. reflexivity.
  - reflexivity.
  - discriminate.
Defined.

Lemma sample_env_preserves (path : string) : preserves sample_env path.
Proof. intros cmd w. reflexivity. Qed.

Lemma splitter_copies_in_tempdir_witness :
  let w := sample_world (sample_wxs "1033,1031,1036") sample_listing in
  let r := windows_installer_display_lang sample_env "EDMC" "EDMC.msi" w in
  result r = Return tt
  /\ copies (trace r)
     = [("EDMC.msi", "C:\Temp\EDMC_1033.msi");
        ("C:\Temp\EDMC_1033.msi", "C:\Temp\EDMC_1031.msi");
        ("C:\Temp\EDMC_1033.msi", "C:\Temp\EDMC_1036.msi")]
  /\ files (world r) !! "C:\Temp\EDMC_1033.msi" = Some "package"
  /\ is_Some (files (world r) !! "C:\Temp\EDMC_1031.msi")
  /\ is_Some (files (world r) !! "C:\Temp\EDMC_1036.msi")
  /\ (preserves sample_env (lcid_msi sample_env "EDMC" 1031) ->
      files (world r) !! "C:\Temp\EDMC_1031.msi" = Some "package")
  /\ (preserves sample_env (lcid_msi sample_env "EDMC" 1036) ->
      files (world r) !! "C:\Temp\EDMC_1036.msi" = Some "package").
Proof.
  apply (splitter_copies_in_tempdir sample_env "EDMC" "EDMC.msi"
           (sample_world (sample_wxs "1033,1031,1036") sample_listing)
           (sample_wxs "1033,1031,1036") "package" SDKPATH).
  - reflexivity.
  - exact sample_joins_plainly.
  - reflexivity.
  - vm_compute. reflexivity.
  - reflexivity.
  - discriminate.
  - exact (sample_env_preserves _).
  - exact (sample_env_keeps _).
  - exact (sample_env_keeps _).
Defined.

Lemma sample_quiet_same_effects : same_effects sample_env quiet_env.
Proof. split; [reflexivity|]. split; [reflexivity|]. intros cmd w. reflexivity. Qed.

Lemma splitter_ignores_exit_status_witness :
  let w := sample_world (sample_wxs "1033,1031,1036") sample_listing in
  windows_installer_display_lang sample_env "EDMC" "EDMC.msi" w
  = windows_installer_display_lang quiet_env "EDMC" "EDMC.msi" w
  /\ result (windows_installer_display_lang quiet_env "EDMC" "EDMC.msi" w)
     = Return tt
  /\ commands (trace (windows_installer_display_lang quiet_env
                        "EDMC" "EDMC.msi" w))
     = tool_cmds SDKPATH sample_env "EDMC" "EDMC.msi" 1031
       ++ tool_cmds SDKPATH sample_env "EDMC" "EDMC.msi" 1036.
Proof.
  destruct (splitter_ignores_exit_status sample_env quiet_env
              "EDMC" "EDMC.msi"
              (sample_world (sample_wxs "1033,1031,1036") sample_listing)
              sample_quiet_same_effects) as (Hsame & _ & Hrun).
  split; [exact Hsame|].
  destruct (Hrun SDKPATH (sample_wxs "1033,1031,1036") [1031; 1036])
    as (Hres & Hcmds & _).
  - reflexivity.
  - exact sample_joins_plainly.
  - reflexivity.
  - vm_compute. reflexivity.
  - exists "package". reflexivity.
  - discriminate.
  - rewrite !not_elem_of_cons. split; [discriminate|].
    split; [discriminate|]. apply not_elem_of_nil.
  - exact (sample_env_keeps _).
  - split; [exact Hres|exact Hcmds].
Defined.

Lemma sample_wxs_first (value : string) :
  not_before 9 (sample_wxs value).
Proof.
  intros i Hi. do 9 (destruct i as [|i]; [reflexivity|]). lia.
Qed.

Lemma lcids_of_comma_separated_witness :
  lcids_of (descriptor "<Package " " " " "
              (separated "," [1033; 1031; 1036]) " />")
  = Return [1033; 1031; 1036].
Proof.
  apply (lcids_of_comma_separated "<Package " " " " " " />"
           [1033; 1031; 1036]).
  - discriminate.
  - repeat constructor; apply Nat.leb_le; reflexivity.
  - reflexivity.
  - reflexivity.
  - exact (sample_wxs_first _).
Defined.

(** * Further properties *)

(** ** The preflight check, continued *)

(** X1: the message of the exit names the first check that fails, in
    the order version, platform, hash: an interpreter that is too old
    is reported whatever the platform and the hash are, and a wrong
    platform is reported whatever the hash is. *)
Theorem system_check_first_failure_reported E dist_dir w :
  let r := system_check E dist_dir w in
  (too_old (version_info E) ->
   result r = Raise (SystemExit ("Unexpected Python version " +:+ version E)))
  /\ (~ too_old (version_info E) -> platform E <> "win32" ->
      result r = Raise (SystemExit ("Unsupported platform " +:+ platform E)))
  /\ (~ too_old (version_info E) -> platform E = "win32" ->
      git_shorthash_from_head E = None ->
      result r = Raise (SystemExit "Invalid Git Hash")).
Proof.
  intros r. subst r. repeat split.
  - intros H. by rewrite system_check_old.
  - intros Hv Hp. by rewrite system_check_platform.
  - intros Hv Hp Hg. by rewrite system_check_no_hash.
Qed.

Lemma startswith_spec (front p : string) :
  startswith front p = true <-> has_prefix front p.
Proof.
  unfold has_prefix. split.
  - revert p. induction front as [|c front IH]; intros p H.
    + by exists p.
    + destruct p as [|b p]; [done|]. cbn in H.
      apply andb_true_iff in H as [Hc H]. apply Ascii.eqb_eq in Hc as ->.
      destruct (IH p H) as [rest ->]. by exists rest.
  - intros [rest ->]. apply startswith_app.
Qed.

Lemma last_char_app (d : string) (c : ascii) :
  last_char d = Some c -> exists front, d = front +:+ String c EmptyString.
Proof.
  induction d as [|a d IH]; [done|]. cbn.
  destruct d as [|b d].
  - intros [= ->]. by exists EmptyString.
  - intros H. destruct (IH H) as [front Hd]. exists (String a front).
    by rewrite app_str_cons, <- Hd.
Qed.

(** A plain name is not below any directory. *)
Lemma plain_name_not_under (d p : string) :
  plain_name p = true -> under d p = false.
Proof.
  unfold plain_name, under. intros Hp.
  assert (Hno : forall front c rest,
            is_sep c = true -> p <> front +:+ String c rest).
  { intros front c rest Hc ->. rewrite all_chars_app in Hp. cbn in Hp.
    rewrite Hc in Hp. cbn in Hp. by rewrite andb_false_r in Hp. }
  apply not_true_is_false. rewrite !orb_true_iff, !andb_true_iff.
  intros [[H|H]|[[Hd H] _]].
  - apply startswith_spec in H as [rest H]. rewrite app_str_assoc in H.
    by apply (Hno d "\"%char rest).
  - apply startswith_spec in H as [rest H]. rewrite app_str_assoc in H.
    by apply (Hno d "/"%char rest).
  - apply startswith_spec in H as [rest H]. unfold ends_with_sep in Hd.
    destruct (last_char d) as [c|] eqn:Hl; [|done].
    apply last_char_app in Hl as [front ->].
    rewrite app_str_assoc in H. by apply (Hno front c rest).
Qed.

Lemma guard_true (dist_dir : string) (w : World) :
  truthy dist_dir && (1 <? String.length dist_dir)%nat && isdir dist_dir w
  = true ->
  isdir dist_dir w = true.
Proof. rewrite !andb_true_iff. tauto. Qed.

(** The stamp after a passing check whose cleanup cannot reach it. *)
Lemma stamp_spared E dist_dir w h :
  ~ too_old (version_info E) -> platform E = "win32" ->
  git_shorthash_from_head E = Some h ->
  spares_stamp dist_dir w ->
  files (world (system_check E dist_dir w)) !! ".gitversion" = Some h.
Proof.
  intros Hv Hp Hg Hsp.
  rewrite (system_check_pass E dist_dir w h Hv Hp Hg).
  destruct (truthy dist_dir && _ && _) eqn:Hc; cbn [world files].
  - apply clean_spec in Hc as (_ & Hlen & Hdir).
    destruct Hsp as [Hshort|[Hno|[_ Hne]]].
    + lia.
    + apply isdir_spec in Hdir. congruence.
    + apply map_lookup_filter_Some. split; [apply lookup_insert_eq|].
      split; cbn; [done|]. by apply plain_name_not_under.
  - apply lookup_insert_eq.
Qed.

Lemma under_descend (d name : string) (names : list string) :
  under d (descend (d +:+ "\" +:+ name) names) = true.
Proof.
  unfold under. apply orb_true_iff. left. apply orb_true_iff. left.
  apply startswith_spec.
  revert name. induction names as [|n names IH]; intros name.
  - exists name. by rewrite app_str_assoc.
  - cbn [descend]. destruct (IH (name +:+ "\" +:+ n)) as [rest Hrest].
    exists rest. rewrite <- Hrest. by rewrite !app_str_assoc.
Qed.

(** X2: a passing check whose output directory is an existing
    directory with an ordinary name of more than one character, other
    than the name of the stamp file, removes it: the tree removal is
    called, the directory is gone afterwards, and so is every file and
    directory that is reached from it through entries with ordinary
    names. *)
Theorem system_check_cleans_output_dir E dist_dir w :
  ~ unsupported E ->
  (1 < String.length dist_dir)%nat ->
  ordinary_name dist_dir = true ->
  dist_dir <> ".gitversion" ->
  is_Some (dirs w !! dist_dir) ->
  let r := system_check E dist_dir w in
  result r = Return ".gitversion"
  /\ ERmtree dist_dir ∈ trace r
  /\ forall names,
       Forall (fun name => ordinary_name name = true) names ->
       files (world r) !! descend dist_dir names = None
       /\ dirs (world r) !! descend dist_dir names = None.
Proof.
  intros Hs Hlen _ _ Hdir r. subst r.
  destruct (supported_cases E Hs) as (Hv & Hp & h & Hg).
  rewrite (system_check_pass E dist_dir w h Hv Hp Hg).
  assert (Hc : truthy dist_dir && (1 <? String.length dist_dir)%nat
               && isdir dist_dir w = true).
  { apply clean_spec. repeat split; try done. intros ->. cbn in Hlen. lia. }
  rewrite Hc. cbn [result trace world files dirs]. split; [done|].
  split; [rewrite !elem_of_cons; tauto|].
  intros names _.
  assert (Hp' : descend dist_dir names = dist_dir
                \/ under dist_dir (descend dist_dir names) = true).
  { destruct names as [|name names]; [by left|right]. apply under_descend. }
  split; apply map_lookup_filter_None; right;
    intros x _ [Hne Hu]; cbn in Hne, Hu; destruct Hp' as [Heq|Hp'];
    congruence.
Qed.

(** X3: after a passing check the stamp file holds the hash, provided
    the cleanup cannot reach the stamp: the output directory has a name
    of at most one character, or is not an existing directory, or has
    an ordinary name (letters, digits, dots, underscores and hyphens,
    with a letter or digit among them) other than the name of the stamp
    file, so that it names another entry of the working directory. *)
Theorem system_check_stamp_holds_hash E dist_dir w :
  ~ unsupported E ->
  spares_stamp dist_dir w ->
  let r := system_check E dist_dir w in
  exists h,
    git_shorthash_from_head E = Some h
    /\ result r = Return ".gitversion"
    /\ files (world r) !! ".gitversion" = Some h.
Proof.
  intros Hs Hsp r. subst r.
  destruct (supported_cases E Hs) as (Hv & Hp & h & Hg).
  exists h. split; [done|]. split; [|by apply stamp_spared].
  rewrite (system_check_pass E dist_dir w h Hv Hp Hg).
  by destruct (truthy dist_dir && _ && _).
Qed.

(** C8: when the short hash is the same in two runs of the check, so is
    what they write: whatever either run writes goes to the stamp file
    and is that hash, and two runs that pass the preflight conditions
    both write the stamp file once, with the same content.  The file
    holds that content when the runs are over: in both worlds the stamp
    file is there and holds the hash, provided the cleanup of the
    output directory cannot reach it (there is nothing to clean, or the
    output directory is another entry of the working directory, as
    [dist.win32] is). *)
Theorem system_check_stamp_deterministic E1 E2 d1 d2 w1 w2 h :
  git_shorthash_from_head E1 = Some h ->
  git_shorthash_from_head E2 = Some h ->
  let r1 := system_check E1 d1 w1 in
  let r2 := system_check E2 d2 w2 in
  (forall p1 c1 p2 c2,
     EWrite p1 c1 ∈ trace r1 -> EWrite p2 c2 ∈ trace r2 ->
     p1 = ".gitversion" /\ p2 = ".gitversion" /\ c1 = c2)
  /\ (~ unsupported E1 -> ~ unsupported E2 ->
      result r1 = Return ".gitversion"
      /\ result r2 = Return ".gitversion"
      /\ written ".gitversion" (trace r1) = [h]
      /\ written ".gitversion" (trace r2) = [h])
  /\ (~ unsupported E1 -> ~ unsupported E2 ->
      spares_stamp d1 w1 -> spares_stamp d2 w2 ->
      files (world r1) !! ".gitversion" = Some h
      /\ files (world r2) !! ".gitversion" = Some h
      /\ files (world r1) !! ".gitversion"
         = files (world r2) !! ".gitversion").
Proof.
  intros Hg1 Hg2 r1 r2. subst r1 r2.
  assert (Hw : forall E d w p c,
            git_shorthash_from_head E = Some h ->
            EWrite p c ∈ trace (system_check E d w) ->
            p = ".gitversion" /\ c = h).
  { intros E d w p c Hg Hin.
    destruct (decide (unsupported E)) as [Hu|Hs].
    - destruct (system_check_unsupported E d w Hu) as (msg & Hr & _).
      rewrite Hr in Hin. cbn in Hin. by apply elem_of_nil in Hin.
    - destruct (supported_cases E Hs) as (Hv & Hp & h' & Hg').
      rewrite (system_check_pass E d w h' Hv Hp Hg') in Hin.
      assert (h' = h) as -> by congruence.
      destruct (truthy d && _ && _); cbn in Hin;
        rewrite !elem_of_cons in Hin;
        repeat (destruct Hin as [Heq|Hin];
                [try discriminate; by injection Heq as -> ->|]);
        by apply elem_of_nil in Hin. }
  assert (Hs : forall E d w,
            git_shorthash_from_head E = Some h -> ~ unsupported E ->
            result (system_check E d w) = Return ".gitversion"
            /\ written ".gitversion" (trace (system_check E d w)) = [h]).
  { intros E d w Hg Hs.
    destruct (supported_cases E Hs) as (Hv & Hp & h' & Hg').
    rewrite (system_check_pass E d w h' Hv Hp Hg').
    assert (h' = h) as -> by congruence.
    destruct (truthy d && _ && _); by split. }
  split.
  - intros p1 c1 p2 c2 H1 H2.
    destruct (Hw _ _ _ _ _ Hg1 H1) as [-> ->].
    destruct (Hw _ _ _ _ _ Hg2 H2) as [-> ->]. done.
  - split.
    + intros Hs1 Hs2.
      destruct (Hs E1 d1 w1 Hg1 Hs1) as [? ?].
      destruct (Hs E2 d2 w2 Hg2 Hs2) as [? ?]. done.
    + intros Hs1 Hs2 Hsp1 Hsp2.
      destruct (supported_cases E1 Hs1) as (Hv1 & Hp1 & _).
      destruct (supported_cases E2 Hs2) as (Hv2 & Hp2 & _).
      rewrite (stamp_spared E1 d1 w1 h Hv1 Hp1 Hg1 Hsp1).
      rewrite (stamp_spared E2 d2 w2 h Hv2 Hp2 Hg2 Hsp2). done.
Qed.

Lemma system_check_stamp_deterministic_witness :
  let r1 := system_check sample_env "dist.win32"
              (sample_world EmptyString sample_listing) in
  let r2 := system_check newer_env EmptyString (sample_world "<Wix />" []) in
  result r1 = Return ".gitversion"
  /\ result r2 = Return ".gitversion"
  /\ written ".gitversion" (trace r1) = ["abc1234"]
  /\ written ".gitversion" (trace r2) = ["abc1234"]
  /\ files (world r1) !! ".gitversion" = Some "abc1234"
  /\ files (world r2) !! ".gitversion" = Some "abc1234".
Proof.
  destruct (system_check_stamp_deterministic sample_env newer_env
              "dist.win32" EmptyString
              (sample_world EmptyString sample_listing)
              (sample_world "<Wix />" []) "abc1234" eq_refl eq_refl)
    as (_ & Hwritten & Hfiles).
  destruct (Hwritten sample_env_supported newer_env_supported)
    as (H1 & H2 & H3 & H4).
  destruct (Hfiles sample_env_supported newer_env_supported)
    as (H5 & H6 & _).
  - right. right. split; [reflexivity|discriminate].
  - left. cbn. lia.
  - repeat split; assumption.
Defined.

(** X4: a second run of a passing check on what the first run left
    removes nothing: the output directory is gone after the first run,
    or was never there.  The second run writes the stamp again, prints
    its line and leaves the directories as they are. *)
Theorem system_check_second_run_removes_nothing E dist_dir w :
  ~ unsupported E ->
  let r1 := system_check E dist_dir w in
  let r2 := system_check E dist_dir (world r1) in
  exists h,
    result r2 = Return ".gitversion"
    /\ trace r2 = [EWrite ".gitversion" h; EPrint ("Git short hash: " +:+ h)]
    /\ dirs (world r2) = dirs (world r1).
Proof.
  intros Hs r1 r2. subst r1 r2.
  destruct (supported_cases E Hs) as (Hv & Hp & h & Hg).
  exists h. rewrite (system_check_pass E dist_dir w h Hv Hp Hg).
  destruct (truthy dist_dir && (1 <? String.length dist_dir)%nat
            && isdir dist_dir w) eqn:Hc; cbn [world];
    rewrite (system_check_pass E dist_dir _ h Hv Hp Hg); cbn [files dirs stdout].
  - match goal with
    | |- context [isdir dist_dir ?w'] =>
        assert (Hgone : isdir dist_dir w' = false)
    end.
    { apply not_true_is_false. rewrite isdir_spec. cbn [dirs].
      intros [x Hx]. apply map_lookup_filter_Some in Hx as [_ [Hx _]].
      by apply Hx. }
    rewrite Hgone, andb_false_r. by repeat split.
  - match goal with
    | |- context [isdir dist_dir ?w'] =>
        change (isdir dist_dir w') with (isdir dist_dir w)
    end.
    rewrite Hc. by repeat split.
Qed.

(** ** The data files, continued *)

(** X5: the function returns a manifest exactly when the localization
    directory can be listed.  When [L10n] is not a directory the listing
    raises and no manifest comes back: a regular file of that name gives
    the error of listing what is not a directory, and no entry of that
    name gives the error of a file that is not found.  Either way the
    world is left as it was. *)
Theorem generate_data_files_iff_listing app_name gitversion_file w :
  let r := generate_data_files app_name gitversion_file w in
  world r = w
  /\ ((exists manifest, result r = Return manifest)
      <-> is_Some (dirs w !! "L10n"))
  /\ (dirs w !! "L10n" = None ->
      trace r = []
      /\ (is_Some (files w !! "L10n") ->
          result r = Raise (NotADirectoryError "L10n"))
      /\ (files w !! "L10n" = None ->
          result r = Raise (FileNotFoundError "L10n"))).
Proof.
  intros r. subst r.
  destruct (dirs w !! "L10n") as [names|] eqn:Hd.
  - rewrite (generate_data_files_run _ _ _ _ Hd). cbn [result world].
    split; [done|]. split; [|intros; discriminate].
    split; [eauto|]. intros _. eauto.
  - unfold generate_data_files, bind, listdir. rewrite Hd.
    destruct (files w !! "L10n") as [text|] eqn:Hfile;
      cbn [result world trace].
    + split; [done|]. split; [split; [by intros [manifest H]|by intros [x H]]|].
      intros _. split; [done|]. split; [done|]. intros; discriminate.
    + split; [done|]. split; [split; [by intros [manifest H]|by intros [x H]]|].
      intros _. split; [done|]. split; [|done]. by intros [x H].
Qed.

Lemma join_has_suffix (a p suffix : string) :
  has_suffix suffix p -> has_suffix suffix (join a p).
Proof.
  intros [front ->]. unfold join.
  destruct (starts_with_sep _); [by exists front|].
  destruct (_ || _).
  - exists (a +:+ front). by rewrite app_str_assoc.
  - exists (a +:+ "\" +:+ front). by rewrite !app_str_assoc.
Qed.

(** X6: every path of the localization entry of a manifest ends in
    ".strings", and it begins with the directory and a backslash unless
    the listed name itself began with a separator. *)
Theorem generate_data_files_l10n_paths app_name gitversion_file w manifest :
  result (generate_data_files app_name gitversion_file w) = Return manifest ->
  exists top entry fdevids plugins,
    manifest = [top; ("L10n", entry); fdevids; plugins]
    /\ forall p, p ∈ entry ->
         has_suffix ".strings" p
         /\ (has_prefix "L10n\" p \/ starts_with_sep p = true).
Proof.
  intros H.
  destruct (dirs w !! "L10n") as [names|] eqn:Hd.
  2:{ unfold generate_data_files, bind, listdir in H. rewrite Hd in H.
      by destruct (files w !! "L10n"). }
  rewrite (generate_data_files_run _ _ _ _ Hd) in H. cbn [result] in H.
  injection H as <-. do 4 eexists. split; [reflexivity|].
  intros p Hp. apply list_elem_of_fmap in Hp as (x & -> & Hx).
  apply list_elem_of_In, filter_In in Hx as [_ Hs].
  apply endswith_spec in Hs. split; [by apply join_has_suffix|].
  unfold join. destruct (starts_with_sep x) eqn:Hsep; [by right|].
  left. exists x. cbn [String.eqb orb ends_with_sep last_char is_sep].
  reflexivity.
Qed.

(** ** The search, the other way round

    What the matcher answers with was there to be found: each loop and
    each piece of the pattern gives back the part of the string it
    consumed. *)

Lemma rmatch_char_sound {X} (c : ascii) (s : string) (g : option string)
    (k : cont X) (x : X) :
  rmatch (RChar c) s g k = Some x ->
  exists s', s = String c s' /\ k s' g = Some x.
Proof.
  destruct s as [|a s]; [done|]. cbn [rmatch].
  destruct (Ascii.eqb a c) eqn:Ha; [|done].
  apply Ascii.eqb_eq in Ha as ->. eauto.
Qed.

Lemma star_loop_sound {X} (fuel : nat) (s : string) (g : option string)
    (k : cont X) (x : X) :
  star_loop (rmatch RSpace) fuel s g k = Some x ->
  exists ws rest,
    s = ws +:+ rest /\ all_chars isspace ws = true /\ k rest g = Some x.
Proof.
  revert s. induction fuel as [|fuel IH]; intros s H.
  - exists EmptyString, s. by repeat split.
  - rewrite star_loop_S in H.
    destruct s as [|c s].
    { exists EmptyString, EmptyString. by repeat split. }
    rewrite rmatch_space in H.
    destruct (isspace c) eqn:Hc.
    + destruct (shorter s (String c s)).
      * destruct (star_loop (rmatch RSpace) fuel s g k) as [y|] eqn:Hin.
        -- injection H as ->. destruct (IH s Hin) as (ws & rest & -> & Hws & Hk).
           exists (String c ws), rest. rewrite app_str_cons. cbn.
           by rewrite Hc, Hws.
        -- exists EmptyString, (String c s). by repeat split.
      * exists EmptyString, (String c s). by repeat split.
    + exists EmptyString, (String c s). by repeat split.
Qed.

Lemma plus_lazy_sound {X} (fuel : nat) (s : string) (g : option string)
    (k : cont X) (x : X) :
  (forall s' g', is_Some (k (String dquote s') g')) ->
  plus_lazy_loop (rmatch RAny) fuel s g k = Some x ->
  exists c v rest,
    s = String c v +:+ rest
    /\ Ascii.eqb c newline = false
    /\ all_chars value_char v = true
    /\ k rest g = Some x.
Proof.
  intros Hquote. revert s. induction fuel as [|fuel IH]; intros s H.
  - rewrite plus_lazy_loop_eq in H. destruct s as [|c s]; [done|].
    rewrite rmatch_any in H. destruct (Ascii.eqb c newline) eqn:Hc; [done|].
    destruct (k s g) as [y|] eqn:Hk; [|done]. injection H as ->.
    exists c, EmptyString, s. by repeat split.
  - rewrite plus_lazy_loop_eq in H. destruct s as [|c s]; [done|].
    rewrite rmatch_any in H. destruct (Ascii.eqb c newline) eqn:Hc; [done|].
    destruct (k s g) as [y|] eqn:Hk.
    + injection H as ->. exists c, EmptyString, s. by repeat split.
    + destruct (shorter s (String c s)); [|done].
      destruct (IH s H) as (c' & v & rest & -> & Hc' & Hv & Hrest).
      exists c, (String c' v), rest. repeat split; try done.
      cbn [all_chars]. rewrite Hv, andb_true_r. unfold value_char.
      rewrite Hc'. cbn. apply negb_true_iff.
      destruct (Ascii.eqb c' dquote) eqn:Hq; [|done].
      apply Ascii.eqb_eq in Hq as ->. rewrite app_str_cons in Hk.
      destruct (Hquote (v +:+ rest) g) as [y Hy]. congruence.
Qed.

Lemma languages_pattern_sound (s : string) (m : option string) :
  rmatch languages_pattern s None (fun _ g => Some g) = Some m ->
  exists ws1 ws2 c v after,
    s = "Languages" +:+ ws1 +:+ "=" +:+ ws2 +:+ q +:+ String c v +:+ q
        +:+ after
    /\ m = Some (String c v)
    /\ all_chars isspace ws1 = true
    /\ all_chars isspace ws2 = true
    /\ Ascii.eqb c newline = false
    /\ all_chars value_char v = true.
Proof.
  unfold languages_pattern, q. intros H.
  rewrite rmatch_seq, rmatch_lit in H.
  destruct (startswith "Languages" s) eqn:Hword; [|done].
  apply startswith_spec in Hword as [s1 ->]. rewrite drop_str_app in H.
  rewrite rmatch_seq, rmatch_star in H.
  apply star_loop_sound in H as (ws1 & s2 & -> & Hws1 & H).
  rewrite rmatch_seq in H.
  apply rmatch_char_sound in H as (s3 & -> & H).
  rewrite rmatch_seq, rmatch_star in H.
  apply star_loop_sound in H as (ws2 & s4 & -> & Hws2 & H).
  rewrite rmatch_seq in H.
  apply rmatch_char_sound in H as (s5 & -> & H).
  rewrite rmatch_seq, rmatch_group_plus_lazy in H.
  apply plus_lazy_sound in H as (c & v & rest & Hs5 & Hc & Hv & H).
  2:{ intros s' g'. rewrite rmatch_char. eauto. }
  cbv beta in H. apply rmatch_char_sound in H as (after & -> & H).
  injection H as <-. subst s5.
  exists ws1, ws2, c, v, after.
  rewrite !(app_str_cons _ EmptyString), !app_str_nil_l.
  repeat split; try done.
  rewrite length_app_str, Nat.add_sub. by rewrite take_str_app.
Qed.

Lemma re_search_sound (r : regex) (text : string) (m : option string) :
  re_search r text = Some m ->
  exists before rest,
    text = before +:+ rest
    /\ rmatch r rest None (fun _ g => Some g) = Some m.
Proof.
  induction text as [|c text IH]; cbn [re_search].
  - destruct (rmatch r EmptyString None _) as [g|] eqn:Hm; [|done].
    intros [= ->]. by exists EmptyString, EmptyString.
  - destruct (rmatch r (String c text) None _) as [g|] eqn:Hm.
    + intros [= ->]. by exists EmptyString, (String c text).
    + intros H. destruct (IH H) as (before & rest & -> & Hr).
      by exists (String c before), rest.
Qed.

(** X7: whatever the search for the pattern answers with stands in
    the text as the value of a Languages attribute: the word, white
    space, the equals sign, white space, and the value between two
    quotes.  The value is never missing and never empty, it holds no
    line break, and no quote after its first character. *)
Theorem search_finds_only_attributes (text : string) (m : option string) :
  re_search languages_pattern text = Some m ->
  exists before ws1 ws2 c v after,
    text = descriptor before ws1 ws2 (String c v) after
    /\ m = Some (String c v)
    /\ all_chars isspace ws1 = true
    /\ all_chars isspace ws2 = true
    /\ Ascii.eqb c newline = false
    /\ all_chars value_char v = true.
Proof.
  intros H. apply re_search_sound in H as (before & rest & -> & H).
  apply languages_pattern_sound in H
    as (ws1 & ws2 & c & v & after & -> & -> & Hws1 & Hws2 & Hc & Hv).
  exists before, ws1, ws2, c, v, after. by repeat split.
Qed.

Lemma search_finds_only_attributes_witness :
  exists before ws1 ws2 c v after,
    sample_wxs "1033,1031"
    = descriptor before ws1 ws2 (String c v) after
    /\ Some "1033,1031" = Some (String c v)
    /\ all_chars isspace ws1 = true
    /\ all_chars isspace ws2 = true
    /\ Ascii.eqb c newline = false
    /\ all_chars value_char v = true.
Proof.
  apply (search_finds_only_attributes (sample_wxs "1033,1031")
           (Some "1033,1031")).
  vm_compute. reflexivity.
Defined.
(** ** The language splitter, continued *)

Lemma per_lcid_bound_cases E app_name filename sdk (lcid : Z) (w : World) :
  sdkpath E = Some sdk ->
  (exists e,
     per_lcid E app_name filename lcid w = mkRes (Raise e) w []
     /\ (e = SameFileError (base_msi E app_name)
         \/ e = FileNotFoundError (base_msi E app_name)))
  \/ (exists w',
        per_lcid E app_name filename lcid w
        = mkRes (Return tt) w' (turn_events sdk E app_name filename lcid)).
Proof.
  intros Hsdk. rewrite per_lcid_copy.
  destruct (files w !! base_msi E app_name) as [data|]; [|left; eauto].
  destruct (String.eqb _ _); [left; eauto|].
  right. rewrite (tools_run E app_name filename sdk lcid _ Hsdk).
  eexists. reflexivity.
Qed.

(** The loop stops at the first copy that fails; the turns before it
    are complete. *)
Lemma for_each_shape E app_name filename sdk (lcids : list Z) (w : World) :
  sdkpath E = Some sdk ->
  exists served,
    served `prefix_of` lcids
    /\ trace (for_each (per_lcid E app_name filename) lcids w)
       = flat_map (turn_events sdk E app_name filename) served.
Proof.
  intros Hsdk. revert w. induction lcids as [|lcid lcids IH]; intros w.
  - exists []. by split.
  - cbn [for_each]. unfold bind.
    destruct (per_lcid_bound_cases E app_name filename sdk lcid w Hsdk)
      as [(e & -> & He)|(w' & ->)]; cbn [result world trace].
    + exists []. split; [apply prefix_nil|done].
    + destruct (IH w') as (served & Hpre & Htr).
      exists (lcid :: served). split; [by apply prefix_cons|].
      cbn [flat_map]. by rewrite Htr.
Qed.

(** X8: a tool is only ever called for a locale whose copy has been
    made.  In every run, either nothing was copied and no tool was
    called, or the package was copied to the base name and then the
    base was copied once for each identifier of some first part of the
    identifiers after 1033, in their order.  Where [SDKPATH] is bound
    the three tools were called once each for every one of these
    copies; where it is not bound no tool was called and at most one
    such copy was made. *)
Theorem splitter_trace_shape E app_name filename w :
  let r := windows_installer_display_lang E app_name filename w in
  (copies (trace r) = [] /\ commands (trace r) = [])
  \/ exists text rest copied,
       files w !! (app_name +:+ ".wxs") = Some text
       /\ lcids_of text = Return (1033 :: rest)
       /\ copied `prefix_of` rest
       /\ copies (trace r)
          = (filename, base_msi E app_name)
            :: map (fun lcid => (base_msi E app_name,
                                 lcid_msi E app_name lcid)) copied
       /\ match sdkpath E with
          | Some sdk =>
              commands (trace r)
              = flat_map (tool_cmds sdk E app_name filename) copied
          | None =>
              commands (trace r) = [] /\ (length copied <= 1)%nat
          end.
Proof.
  intros r. subst r.
  destruct (splitter_cases E app_name filename w)
    as [[_ ->]|[(text & e & _ & _ & ->)
       |[(text & first & rest & _ & _ & _ & ->)
        |(text & rest & Hf & Hl & ->)]]]; try by left.
  rewrite splitter_copy.
  destruct (files w !! filename) as [data|]; [|by left].
  destruct (String.eqb _ _); [by left|].
  right. exists text, rest. cbn [trace copies commands].
  set (w0 := mkWorld _ _ _).
  destruct (sdkpath E) as [sdk|] eqn:Hsdk.
  - destruct (for_each_shape E app_name filename sdk rest w0 Hsdk)
      as (served & Hpre & ->).
    exists served. rewrite copies_turns, commands_turns. by repeat split.
  - destruct (for_each_unbound E app_name filename rest w0 Hsdk)
      as (Hcmds & copied & Hpre & Hlen & Hcopies).
    exists copied. rewrite Hcopies, Hcmds. by repeat split.
Qed.

(** X10: when a file is missing the run ends with the error that names
    it: the descriptor before anything is read, the package after the
    descriptor has been read and found in order.  Missing means that
    the name is that of no file and no directory.  Nothing has been
    copied and no tool has been called by then. *)
Theorem splitter_missing_files E app_name filename w :
  let r := windows_installer_display_lang E app_name filename w in
  let wxs := app_name +:+ ".wxs" in
  (files w !! wxs = None -> dirs w !! wxs = None ->
   r = mkRes (Raise (FileNotFoundError wxs)) w [])
  /\ (forall text rest,
        files w !! wxs = Some text ->
        lcids_of text = Return (1033 :: rest) ->
        files w !! filename = None -> dirs w !! filename = None ->
        r = mkRes (Raise (FileNotFoundError filename)) w [ERead wxs]).
Proof.
  intros r wxs. subst r wxs. split.
  - intros Hf _. unfold windows_installer_display_lang, bind, read_text.
    by rewrite Hf.
  - intros text rest Hf Hl Hin _.
    rewrite (splitter_assert_holds E app_name filename w text rest Hf Hl).
    by rewrite splitter_copy, Hin.
Qed.

Lemma for_each_app {A} (body : A -> M unit) (xs ys : list A) (w w' : World)
    (t : list event) :
  for_each body xs w = mkRes (Return tt) w' t ->
  for_each body (xs ++ ys) w
  = mkRes (result (for_each body ys w')) (world (for_each body ys w'))
          (t ++ trace (for_each body ys w')).
Proof.
  revert w t. induction xs as [|x xs IH]; intros w t H.
  - cbn in H. injection H as <- <-. cbn. by destruct (for_each body ys w).
  - cbn [for_each app] in *. unfold bind in *.
    destruct (result (body x w)) as [[]|e] eqn:Hx; [|discriminate].
    destruct (for_each body xs (world (body x w))) as [res1 w1 t1] eqn:H1.
    cbn [result world trace] in H. injection H as -> -> <-.
    rewrite (IH _ _ H1). cbn [result world trace].
    by rewrite app_assoc.
Qed.

(** X11: when 1033 stands in the list a second time, the run ends
    there with the error of a copy onto itself: the base would be
    copied to its own name.  This is for a host where [SDKPATH] is
    bound, paths in the directory of temporary files that mean what
    their spelling says, a package that is there and is not the base
    copy, and tools that leave the base copy in place.  The identifiers
    before that place have been served in full, those after it not at
    all. *)
Theorem splitter_repeated_default E app_name filename w text sdk
    (before after : list Z) :
  sdkpath E = Some sdk ->
  joins_plainly (gettempdir E) app_name ->
  files w !! (app_name +:+ ".wxs") = Some text ->
  lcids_of text = Return (1033 :: before ++ 1033 :: after) ->
  1033 ∉ before ->
  is_Some (files w !! filename) ->
  filename <> base_msi E app_name ->
  keeps E (base_msi E app_name) ->
  let r := windows_installer_display_lang E app_name filename w in
  result r = Raise (SameFileError (base_msi E app_name))
  /\ copies (trace r)
     = (filename, base_msi E app_name)
       :: map (fun lcid => (base_msi E app_name,
                            lcid_msi E app_name lcid)) before
  /\ commands (trace r) = flat_map (tool_cmds sdk E app_name filename) before.
Proof.
  intros Hsdk _ Hf Hl Hnot [data Hin] Hne Hkeep r. subst r.
  rewrite (splitter_assert_holds E app_name filename w text _ Hf Hl).
  rewrite splitter_copy, Hin, (proj2 (String.eqb_neq _ _) Hne).
  set (w0 := mkWorld _ _ _).
  destruct (for_each_lcids E app_name filename sdk Hsdk before w0)
    as (w' & Hloop & [data' Hbase]);
    [done|cbn; rewrite lookup_insert_eq; eauto|done|].
  rewrite (for_each_app _ _ _ _ _ _ Hloop).
  assert (Hstop : for_each (per_lcid E app_name filename) (1033 :: after) w'
                  = mkRes (Raise (SameFileError (base_msi E app_name))) w' []).
  { cbn [for_each]. unfold bind at 1. rewrite per_lcid_copy, Hbase.
    by rewrite lcid_msi_base, String.eqb_refl. }
  rewrite Hstop. cbn [result world trace copies commands app].
  rewrite app_nil_r, copies_turns, commands_turns. done.
Qed.

Lemma splitter_repeated_default_witness :
  let w := sample_world (sample_wxs "1033,1031,1033,1036") sample_listing in
  let r := windows_installer_display_lang sample_env "EDMC" "EDMC.msi" w in
  result r = Raise (SameFileError "C:\Temp\EDMC_1033.msi")
  /\ copies (trace r)
     = [("EDMC.msi", "C:\Temp\EDMC_1033.msi");
        ("C:\Temp\EDMC_1033.msi", "C:\Temp\EDMC_1031.msi")]
  /\ commands (trace r) = tool_cmds SDKPATH sample_env "EDMC" "EDMC.msi" 1031.
Proof.
  apply (splitter_repeated_default sample_env "EDMC" "EDMC.msi"
           (sample_world (sample_wxs "1033,1031,1033,1036") sample_listing)
           (sample_wxs "1033,1031,1033,1036") SDKPATH [1031] [1036]).
  - reflexivity.
  - exact sample_joins_plainly.
  - reflexivity.
  - vm_compute. reflexivity.
  - rewrite not_elem_of_cons. split; [discriminate|apply not_elem_of_nil].
  - exists "package". reflexivity.
  - discriminate.
  - exact (sample_env_keeps _).
Defined.

(** X12: different identifiers have different files in the temp
    directory, so the copy for one locale never overwrites the copy
    for another, and only 1033 has the base name. *)
Theorem locale_files_distinct E app_name (m n : Z) :
  (lcid_msi E app_name m = lcid_msi E app_name n <-> m = n)
  /\ (lcid_msi E app_name m = base_msi E app_name <-> m = 1033).
Proof.
  split; split.
  - apply lcid_msi_inj.
  - by intros ->.
  - rewrite <- lcid_msi_base. apply lcid_msi_inj.
  - intros ->. apply lcid_msi_base.
Qed.

(** ** Lists that are not quite lists of integers *)

Lemma piece_char_value (c : ascii) : piece_char c = true -> value_char c = true.
Proof. unfold piece_char. rewrite andb_true_iff. tauto. Qed.

Lemma piece_char_not_comma (c : ascii) :
  piece_char c = true -> not_char "," c = true.
Proof. unfold piece_char. rewrite andb_true_iff. tauto. Qed.

Lemma literal_char_piece (c : ascii) :
  literal_char c = true -> piece_char c = true.
Proof.
  intros H. unfold piece_char.
  by rewrite (literal_char_value c H), (literal_char_not_comma c H).
Qed.

Lemma pad_char_piece (c : ascii) : pad_char c = true -> piece_char c = true.
Proof. by destruct c as [[] [] [] [] [] [] [] []]. Qed.

Lemma pad_char_int_space (c : ascii) : pad_char c = true -> int_space c = true.
Proof. unfold pad_char. rewrite andb_true_iff. tauto. Qed.

Lemma concat_chars (f : ascii -> bool) (sep : ascii) (pieces : list string) :
  f sep = true ->
  Forall (fun piece => all_chars f piece = true) pieces ->
  all_chars f (String.concat (String sep EmptyString) pieces) = true.
Proof.
  intros Hsep. induction 1 as [|piece pieces Hp _ IH]; [done|].
  destruct pieces as [|piece' pieces]; [done|].
  rewrite concat_cons, !all_chars_app, Hp. cbn [all_chars andb].
  by rewrite Hsep, IH.
Qed.

Lemma ints_first_bad (good : list Z) (bad : string) (others : list string) :
  Forall (fun id => (decimal_digits id <= int_max_str_digits)%nat) good ->
  py_int bad = None ->
  ints (map str_of_int good ++ bad :: others) = Raise (ValueError bad).
Proof.
  intros Hgood Hbad. induction Hgood as [|id good Hid _ IH]; cbn.
  - by rewrite Hbad.
  - by rewrite (py_int_str_of_int id Hid), IH.
Qed.

(** X13: a list with a piece that is no integer, an empty piece
    between two commas or after the last one among them, makes the run
    end with the error of the conversion, which carries the first such
    piece.  The descriptor has been read by then and nothing else has
    happened. *)
Theorem splitter_bad_piece E app_name filename w
    (before ws1 ws2 after : string) (good : list Z) (bad : string)
    (others : list string) :
  let value := String.concat "," (map str_of_int good ++ bad :: others) in
  let text := descriptor before ws1 ws2 value after in
  files w !! (app_name +:+ ".wxs") = Some text ->
  value <> EmptyString ->
  Forall (fun id => (decimal_digits id <= int_max_str_digits)%nat) good ->
  py_int bad = None ->
  all_chars piece_char bad = true ->
  Forall (fun piece => all_chars piece_char piece = true) others ->
  all_chars isspace ws1 = true ->
  all_chars isspace ws2 = true ->
  not_before (String.length before) text ->
  let r := windows_installer_display_lang E app_name filename w in
  result r = Raise (ValueError bad)
  /\ trace r = [ERead (app_name +:+ ".wxs")]
  /\ world r = w.
Proof.
  intros value text Hf Hne Hgood Hbad Hbc Hoc Hws1 Hws2 Hfirst r. subst r.
  assert (Hpieces : Forall (fun piece => all_chars piece_char piece = true)
                      (map str_of_int good ++ bad :: others)).
  { apply Forall_app. split; [|by constructor].
    apply Forall_forall. intros piece Hin.
    apply list_elem_of_fmap in Hin as (id & -> & _).
    apply (all_chars_impl literal_char); [apply literal_char_piece|].
    apply str_of_int_chars. }
  assert (Hl : lcids_of text = Raise (ValueError bad)).
  { unfold lcids_of, text. rewrite re_search_descriptor; try done.
    - fold value. unfold value. rewrite split_concat.
      + by apply ints_first_bad.
      + by destruct (map str_of_int good).
      + eapply Forall_impl; [exact Hpieces|]. intros piece.
        apply all_chars_impl, piece_char_not_comma.
    - apply concat_chars; [done|].
      eapply Forall_impl; [exact Hpieces|]. intros piece.
      apply all_chars_impl, piece_char_value. }
  by rewrite (splitter_parse_fails E app_name filename w text _ Hf Hl).
Qed.

Lemma splitter_bad_piece_witness :
  let w := sample_world (sample_wxs "1033,,1031") sample_listing in
  let r := windows_installer_display_lang sample_env "EDMC" "EDMC.msi" w in
  result r = Raise (ValueError EmptyString)
  /\ trace r = [ERead "EDMC.wxs"]
  /\ world r = w.
Proof.
  apply (splitter_bad_piece sample_env "EDMC" "EDMC.msi"
           (sample_world (sample_wxs "1033,,1031") sample_listing)
           "<Package " " " " " " />" [1033] EmptyString ["1031"]).
  - reflexivity.
  - discriminate.
  - apply Forall_cons. split; [|apply Forall_nil_2].
    apply Nat.leb_le. reflexivity.
  - reflexivity.
  - reflexivity.
  - apply Forall_cons. split; [reflexivity|apply Forall_nil_2].
  - reflexivity.
  - reflexivity.
  - exact (sample_wxs_first _).
Defined.

(** *** White space around an identifier *)

Lemma skip_spaces_pad (pad s : string) :
  all_chars int_space pad = true -> skip_spaces (pad +:+ s) = skip_spaces s.
Proof.
  induction pad as [|c pad IH]; [done|]. cbn [all_chars].
  rewrite andb_true_iff. intros [Hc Hp]. rewrite app_str_cons.
  cbn [skip_spaces]. rewrite Hc. by apply IH.
Qed.

Lemma skip_spaces_all (pad : string) :
  all_chars int_space pad = true -> skip_spaces pad = EmptyString.
Proof.
  intros H. rewrite <- (app_str_nil_r pad). by rewrite skip_spaces_pad.
Qed.

Lemma skip_spaces_app_nil (rest pad : string) :
  skip_spaces rest = EmptyString ->
  all_chars int_space pad = true ->
  skip_spaces (rest +:+ pad) = EmptyString.
Proof.
  intros Hrest Hpad. induction rest as [|c rest IH].
  - rewrite app_str_nil_l. by apply skip_spaces_all.
  - cbn [skip_spaces] in Hrest. rewrite app_str_cons. cbn [skip_spaces].
    destruct (int_space c); [by apply IH|done].
Qed.

Lemma skip_spaces_app_cons (s pad : string) (c : ascii) (r : string) :
  skip_spaces s = String c r ->
  skip_spaces (s +:+ pad) = String c (r +:+ pad).
Proof.
  induction s as [|a s IH]; [done|]. cbn [skip_spaces].
  rewrite app_str_cons. cbn [skip_spaces].
  destruct (int_space a); [exact IH|]. by intros [= -> ->].
Qed.

Lemma int_space_no_digit (c : ascii) :
  int_space c = true -> digit_value c = None /\ Ascii.eqb c "_" = false.
Proof. by destruct c as [[] [] [] [] [] [] [] []]. Qed.

Lemma scan_digits_app (s pad : string) (acc : Z) (n : nat) (b : bool)
    (v : Z) (m : nat) (rest : string) :
  all_chars int_space pad = true ->
  scan_digits s acc n b = Some (v, m, rest) ->
  scan_digits (s +:+ pad) acc n b = Some (v, m, rest +:+ pad).
Proof.
  intros Hpad. revert acc n b. induction s as [|a s IH]; intros acc n b.
  - cbn [scan_digits]. destruct b; [done|]. intros [= <- <- <-].
    rewrite !app_str_nil_l. destruct pad as [|c pad]; [done|].
    cbn in Hpad. apply andb_true_iff in Hpad as [Hc _].
    apply int_space_no_digit in Hc as [Hd Hu]. cbn [scan_digits].
    by rewrite Hd, Hu.
  - rewrite app_str_cons. cbn [scan_digits].
    destruct (digit_value a); [apply IH|].
    destruct (Ascii.eqb a "_").
    + destruct b; [done|apply IH].
    + destruct b; [done|]. by intros [= <- <- <-].
Qed.

Lemma int_digits_pad (sign : Z) (s pad : string) (z : Z) :
  all_chars int_space pad = true ->
  int_digits sign s = Some z ->
  int_digits sign (s +:+ pad) = Some z.
Proof.
  intros Hpad. unfold int_digits.
  destruct s as [|a s]; [done|]. rewrite app_str_cons.
  change (startswith "_" (String a (s +:+ pad)))
    with (startswith "_" (String a s)).
  destruct (startswith "_" (String a s)); [done|].
  rewrite <- app_str_cons.
  destruct (scan_digits (String a s) 0 0 false) as [[[v n] rest]|] eqn:Hs;
    [|done].
  rewrite (scan_digits_app _ _ _ _ _ _ _ _ Hpad Hs).
  destruct (n =? 0)%nat; [done|].
  destruct (int_max_str_digits <? n)%nat; [done|].
  destruct (skip_spaces rest) eqn:Hr; [|done].
  by rewrite (skip_spaces_app_nil _ _ Hr Hpad).
Qed.

Lemma py_int_pad (front s back : string) (z : Z) :
  all_chars int_space front = true ->
  all_chars int_space back = true ->
  py_int s = Some z ->
  py_int (front +:+ s +:+ back) = Some z.
Proof.
  intros Hfront Hback. unfold py_int. rewrite (skip_spaces_pad _ _ Hfront).
  destruct (skip_spaces s) as [|c r] eqn:Hs; [done|].
  rewrite (skip_spaces_app_cons _ back _ _ Hs).
  destruct c as [[] [] [] [] [] [] [] []]; cbv beta iota; intros H;
    first [ by apply int_digits_pad
          | rewrite <- app_str_cons; by apply int_digits_pad ].
Qed.

Lemma padded_piece (item : string * Z * string) :
  pads_ok item ->
  py_int (padded item) = Some item.1.2
  /\ all_chars piece_char (padded item) = true
  /\ padded item <> EmptyString.
Proof.
  destruct item as [[front id] back]. unfold pads_ok, padded. cbn [fst snd].
  intros (Hfront & Hback & Hdigits). split; [|split].
  - apply py_int_pad.
    + by apply (all_chars_impl pad_char); [apply pad_char_int_space|].
    + by apply (all_chars_impl pad_char); [apply pad_char_int_space|].
    + by apply py_int_str_of_int.
  - rewrite !all_chars_app.
    rewrite (all_chars_impl pad_char piece_char _ pad_char_piece Hfront).
    rewrite (all_chars_impl pad_char piece_char _ pad_char_piece Hback).
    by rewrite (all_chars_impl literal_char piece_char _ literal_char_piece
                  (str_of_int_chars id)).
  - intros H. apply (f_equal String.length) in H.
    rewrite !length_app_str in H. cbn in H.
    pose proof (str_of_int_nonempty id) as Hne.
    destruct (str_of_int id); [done|]. cbn in H. lia.
Qed.

(** X14: white space before and after an identifier of the list is
    ignored, as long as it is no line break: the list is parsed into
    the same integers as without it. *)
Theorem lcids_of_padded (before ws1 ws2 after : string)
    (items : list (string * Z * string)) :
  items <> [] ->
  Forall pads_ok items ->
  all_chars isspace ws1 = true ->
  all_chars isspace ws2 = true ->
  let value := String.concat "," (map padded items) in
  not_before (String.length before)
             (descriptor before ws1 ws2 value after) ->
  lcids_of (descriptor before ws1 ws2 value after)
  = Return (map (fun item => item.1.2) items).
Proof.
  intros Hne Hitems Hws1 Hws2 value Hfirst.
  assert (Hpieces : Forall (fun piece => all_chars piece_char piece = true)
                      (map padded items)).
  { apply Forall_fmap. eapply Forall_impl; [exact Hitems|].
    intros item Hitem. by apply padded_piece. }
  unfold lcids_of. rewrite re_search_descriptor; try done.
  - unfold value. rewrite split_concat.
    + clear Hne Hfirst Hpieces. induction Hitems as [|item items Hi _ IH];
        [done|]. cbn [map ints].
      destruct (padded_piece item Hi) as (-> & _). by rewrite IH.
    + by destruct items.
    + eapply Forall_impl; [exact Hpieces|]. intros piece.
      apply all_chars_impl, piece_char_not_comma.
  - unfold value. destruct items as [|item items]; [done|].
    apply Forall_cons in Hitems as [Hi _].
    destruct (padded_piece item Hi) as (_ & _ & Hnonempty).
    destruct items as [|item' items]; [done|].
    cbn [map]. rewrite concat_cons. intros H.
    by destruct (padded item).
  - apply concat_chars; [done|].
    eapply Forall_impl; [exact Hpieces|]. intros piece.
    apply all_chars_impl, piece_char_value.
Qed.

Lemma lcids_of_padded_witness :
  lcids_of (descriptor "<Package " " " " "
              (String.concat "," (map padded
                 [(EmptyString, 1033, EmptyString);
                  (" ", 1031, EmptyString);
                  (" ", 1036, " ")]))
              " />")
  = Return [1033; 1031; 1036].
Proof.
  apply (lcids_of_padded "<Package " " " " " " />"
           [(EmptyString, 1033, EmptyString);
            (" ", 1031, EmptyString);
            (" ", 1036, " ")]).
  - discriminate.
  - repeat (apply Forall_cons; split;
            [split; [reflexivity|split; [reflexivity|]];
             apply Nat.leb_le; reflexivity|]).
    apply Forall_nil_2.
  - reflexivity.
  - reflexivity.
  - exact (sample_wxs_first _).
Defined.

(** ** The body of the script *)

(** What a passing preflight check leaves behind when it is run on the
    output directory of the script. *)
Lemma preflight_pass E w :
  ~ unsupported E ->
  exists h w1 t1,
    git_shorthash_from_head E = Some h
    /\ system_check E DIST_DIR w = mkRes (Return ".gitversion") w1 t1
    /\ files w1 !! ".gitversion" = Some h
    /\ dirs w1 !! DIST_DIR = None
    /\ (forall p, p <> DIST_DIR -> under DIST_DIR p = false ->
          dirs w1 !! p = dirs w !! p
          /\ (p <> ".gitversion" -> files w1 !! p = files w !! p))
    /\ copies t1 = [] /\ commands t1 = [].
Proof.
  intros Hs. destruct (supported_cases E Hs) as (Hv & Hp & h & Hg).
  exists h. rewrite (system_check_pass E DIST_DIR w h Hv Hp Hg).
  change (truthy DIST_DIR && (1 <? String.length DIST_DIR)%nat)
    with true. cbn [andb].
  destruct (isdir DIST_DIR w) eqn:Hd.
  - do 2 eexists. split; [done|]. split; [reflexivity|].
    cbn [files dirs]. repeat split.
    + apply map_lookup_filter_Some. split; [apply lookup_insert_eq|].
      split; [done|]. by apply plain_name_not_under.
    + apply map_lookup_filter_None. right. intros x _ [Hne _]. by apply Hne.
    + apply option_eq. intros x. rewrite map_lookup_filter_Some.
      unfold outside. cbn. tauto.
    + intros Hstamp. apply option_eq. intros x.
      rewrite map_lookup_filter_Some, lookup_insert_ne by done.
      unfold outside. cbn. tauto.
  - do 2 eexists. split; [done|]. split; [reflexivity|].
    cbn [files dirs]. repeat split.
    + apply lookup_insert_eq.
    + destruct (dirs w !! DIST_DIR) eqn:Hl; [|done].
      assert (isdir DIST_DIR w = true) by (apply isdir_spec; rewrite Hl; eauto).
      congruence.
    + intros Hstamp. by rewrite lookup_insert_ne.
Qed.

Lemma only_looked_bind {A B} (m : M A) (k : A -> M B) (w : World) :
  only_looked (m w) w ->
  (forall a, only_looked (k a w) w) ->
  only_looked ((a <- m ;; k a) w) w.
Proof.
  intros (Hw & Hc & Hs) Hk. unfold bind.
  destruct (result (m w)) as [a|e]; [|done].
  rewrite Hw. destruct (Hk a) as (Hw' & Hc' & Hs').
  unfold only_looked. cbn [world trace].
  by rewrite copies_app, commands_app, Hc, Hs, Hc', Hs'.
Qed.

Lemma only_looked_read_text (path : string) (w : World) :
  only_looked (read_text path w) w.
Proof. unfold read_text. by destruct (files w !! path). Qed.

Lemma only_looked_listdir (path : string) (w : World) :
  only_looked (listdir path w) w.
Proof.
  unfold listdir. destruct (dirs w !! path); [done|].
  by destruct (files w !! path).
Qed.

Lemma prepare_reads_only C gitversion_filename w :
  only_looked (prepare C gitversion_filename w) w.
Proof.
  unfold prepare.
  apply only_looked_bind.
  { unfold generate_data_files. apply only_looked_bind;
      [apply only_looked_listdir|done]. }
  intros data. apply only_looked_bind; [apply only_looked_read_text|].
  intros manifest. apply only_looked_bind; [apply only_looked_read_text|].
  done.
Qed.

Lemma prepare_run C gitversion_filename w (data : list (string * list string))
    (manifest cmd_manifest : string) :
  generate_data_files (appname C) gitversion_filename w
  = mkRes (Return data) w [EListdir "L10n"] ->
  files w !! (appname C +:+ ".manifest") = Some manifest ->
  files w !! (appcmdname C +:+ ".manifest") = Some cmd_manifest ->
  exists version_info,
    prepare C gitversion_filename w
    = mkRes
        (Return
           (mkFreezeArgs version_info
              [mkExeConfig (appname C) "EDMarketConnector.py"
                 (Some [(0, appname C +:+ ".ico")]) [(24, 1, manifest)]]
              [mkExeConfig (appcmdname C) "EDMC.py" None
                 [(24, 1, cmd_manifest)]]
              data OPTIONS))
        w
        [EListdir "L10n"; ERead (appname C +:+ ".manifest");
         ERead (appcmdname C +:+ ".manifest")].
Proof.
  intros Hgen Hm1 Hm2. eexists. unfold prepare, bind. rewrite Hgen.
  cbn [result world trace]. unfold read_text. rewrite Hm1.
  cbn [result world trace]. rewrite Hm2. reflexivity.
Qed.

(** X15: when the preflight check fails the script ends with its exit
    and has done nothing at all; whether the environment has the
    variable WIX plays no part. *)
Theorem main_preflight_failure E C w :
  unsupported E ->
  exists msg,
    main E C w = mkMainRes (Fails (SystemExit msg)) w []
    /\ msg <> EmptyString.
Proof.
  intros H. destruct (system_check_unsupported E DIST_DIR w H)
    as (msg & Hr & Hmsg).
  exists msg. split; [|done]. unfold main. by rewrite Hr.
Qed.

Lemma main_preflight_failure_witness :
  exists msg,
    main linux_env no_wix_config build_world
    = mkMainRes (Fails (SystemExit msg)) build_world []
    /\ msg <> EmptyString.
Proof.
  apply (main_preflight_failure linux_env no_wix_config build_world).
  right. left. discriminate.
Defined.

(** X16: without the variable WIX in the environment the script ends
    with a KeyError, but only after the preflight check has done its
    work: the stamp file is written and the output directory of an
    earlier build is gone.  Nothing has been listed or read. *)
Theorem main_needs_wix E C w :
  ~ unsupported E ->
  environ C !! "WIX" = None ->
  let r := main E C w in
  main_result r = KeyError "WIX"
  /\ main_trace r = trace (system_check E DIST_DIR w)
  /\ main_world r = world (system_check E DIST_DIR w)
  /\ (exists h, git_shorthash_from_head E = Some h
                /\ files (main_world r) !! ".gitversion" = Some h)
  /\ dirs (main_world r) !! DIST_DIR = None.
Proof.
  intros Hs Hwix r. subst r.
  destruct (preflight_pass E w Hs)
    as (h & w1 & t1 & Hg & Hr & Hstamp & Hgone & _).
  unfold main. rewrite Hr. cbn [result world trace]. rewrite Hwix.
  cbn [main_result main_trace main_world]. repeat split; eauto.
Qed.

Lemma main_needs_wix_witness :
  let r := main sample_env no_wix_config build_world in
  main_result r = KeyError "WIX"
  /\ main_trace r = trace (system_check sample_env DIST_DIR build_world)
  /\ main_world r = world (system_check sample_env DIST_DIR build_world)
  /\ (exists h, git_shorthash_from_head sample_env = Some h
                /\ files (main_world r) !! ".gitversion" = Some h)
  /\ dirs (main_world r) !! DIST_DIR = None.
Proof.
  apply (main_needs_wix sample_env no_wix_config build_world).
  - exact sample_env_supported.
  - reflexivity.
Defined.

(** X17: the variable WIX has to be there, but its value is never
    used: two environments that both have it, with whatever values,
    give the same run. *)
Theorem main_ignores_wix_value E w (env1 env2 : gmap string string)
    (name cmdname ver short copy : string) :
  is_Some (env1 !! "WIX") ->
  is_Some (env2 !! "WIX") ->
  main E (mkConfig env1 name cmdname ver short copy) w
  = main E (mkConfig env2 name cmdname ver short copy) w.
Proof.
  intros [wix1 H1] [wix2 H2]. unfold main. cbn [environ].
  rewrite H1, H2. reflexivity.
Qed.

Lemma main_ignores_wix_value_witness :
  main sample_env sample_config build_world
  = main sample_env other_wix_config build_world.
Proof.
  apply (main_ignores_wix_value sample_env build_world).
  - exists "C:\WiX". reflexivity.
  - exists "D:\Tools\WiX Toolset". reflexivity.
Defined.

Lemma manifest_path_safe (name : string) :
  plain_name name = true ->
  name +:+ ".manifest" <> DIST_DIR
  /\ name +:+ ".manifest" <> ".gitversion"
  /\ under DIST_DIR (name +:+ ".manifest") = false.
Proof.
  intros Hplain.
  assert (Hend : endswith ".manifest" (name +:+ ".manifest") = true).
  { apply endswith_spec. by exists name. }
  repeat split.
  - intros H. by rewrite H in Hend.
  - intros H. by rewrite H in Hend.
  - apply plain_name_not_under. unfold plain_name in *.
    by rewrite all_chars_app, Hplain.
Qed.

(** X18: when the preflight check passes, WIX is set, the localization
    directory can be listed and the two manifests of plain product
    names are there, the script reaches the freeze.  The freeze is told
    to write into the directory that the preflight check has just
    removed; the data files are those that the assembler gives for the
    stamp file, which by then holds the hash; and each executable
    carries the text of its manifest as resource 24/1. *)
Theorem main_freeze_arguments E C w (names : list string)
    (manifest cmd_manifest : string) :
  ~ unsupported E ->
  is_Some (environ C !! "WIX") ->
  dirs w !! "L10n" = Some names ->
  plain_name (appname C) = true ->
  plain_name (appcmdname C) = true ->
  files w !! (appname C +:+ ".manifest") = Some manifest ->
  files w !! (appcmdname C +:+ ".manifest") = Some cmd_manifest ->
  let r := main E C w in
  exists h args,
    git_shorthash_from_head E = Some h
    /\ main_result r = CallsFreeze args
    /\ dist_dir (fa_options args) = "dist.win32"
    /\ dirs (main_world r) !! "dist.win32" = None
    /\ files (main_world r) !! ".gitversion" = Some h
    /\ result (generate_data_files (appname C) ".gitversion" w)
       = Return (fa_data_files args)
    /\ fa_windows args
       = [mkExeConfig (appname C) "EDMarketConnector.py"
            (Some [(0, appname C +:+ ".ico")]) [(24, 1, manifest)]]
    /\ fa_console args
       = [mkExeConfig (appcmdname C) "EDMC.py" None [(24, 1, cmd_manifest)]].
Proof.
  intros Hs [wix Hwix] Hl Hn1 Hn2 Hm1 Hm2 r. subst r.
  destruct (preflight_pass E w Hs)
    as (h & w1 & t1 & Hg & Hr & Hstamp & Hgone & Hkeep & _).
  destruct (manifest_path_safe _ Hn1) as (Ha1 & Ha2 & Ha3).
  destruct (manifest_path_safe _ Hn2) as (Hb1 & Hb2 & Hb3).
  destruct (Hkeep "L10n") as [Hl1 _]; [done|done|].
  destruct (Hkeep _ Ha1 Ha3) as [_ Hf1].
  destruct (Hkeep _ Hb1 Hb3) as [_ Hf2].
  rewrite Hl in Hl1.
  specialize (Hf1 Ha2). rewrite Hm1 in Hf1.
  specialize (Hf2 Hb2). rewrite Hm2 in Hf2.
  pose proof (generate_data_files_run (appname C) ".gitversion" w1 names Hl1)
    as Hgen.
  destruct (prepare_run C ".gitversion" w1 _ _ _ Hgen Hf1 Hf2)
    as [version_info Hprep].
  exists h. unfold main. rewrite Hr. cbn [result world trace]. rewrite Hwix.
  cbv zeta. rewrite Hprep. cbn [result world trace main_result main_world].
  eexists. split; [done|]. split; [reflexivity|].
  cbn [fa_options fa_data_files fa_windows fa_console].
  rewrite (generate_data_files_run _ _ _ _ Hl). by repeat split.
Qed.

Lemma main_freeze_arguments_witness :
  let r := main sample_env sample_config build_world in
  exists h args,
    git_shorthash_from_head sample_env = Some h
    /\ main_result r = CallsFreeze args
    /\ dist_dir (fa_options args) = "dist.win32"
    /\ dirs (main_world r) !! "dist.win32" = None
    /\ files (main_world r) !! ".gitversion" = Some h
    /\ result (generate_data_files "EDMC" ".gitversion" build_world)
       = Return (fa_data_files args)
    /\ fa_windows args
       = [mkExeConfig "EDMC" "EDMarketConnector.py"
            (Some [(0, "EDMC.ico")]) [(24, 1, "<assembly gui />")]]
    /\ fa_console args
       = [mkExeConfig "EDMCcmd" "EDMC.py" None
            [(24, 1, "<assembly console />")]].
Proof.
  apply (main_freeze_arguments sample_env sample_config build_world
           sample_listing "<assembly gui />" "<assembly console />").
  - exact sample_env_supported.
  - exists "C:\WiX". reflexivity.
  - reflexivity.
  - reflexivity.
  - reflexivity.
  - reflexivity.
  - reflexivity.
Defined.

(** X19: the script itself never copies a package and never calls a
    tool of the SDK: whatever the host, the configuration and the
    files, no run of its body holds a copy or a command.  The language
    splitter is not part of what the script runs. *)
Theorem main_never_copies_or_runs_tools E C w :
  copies (main_trace (main E C w)) = []
  /\ commands (main_trace (main E C w)) = [].
Proof.
  unfold main.
  destruct (decide (unsupported E)) as [Hu|Hs].
  - destruct (system_check_unsupported E DIST_DIR w Hu) as (msg & -> & _).
    done.
  - destruct (preflight_pass E w Hs)
      as (h & w1 & t1 & _ & -> & _ & _ & _ & Hc1 & Hc2).
    cbn [result world trace].
    destruct (environ C !! "WIX"); cbn [main_trace]; [|done].
    destruct (prepare_reads_only C ".gitversion" w1) as (_ & Hp1 & Hp2).
    by rewrite copies_app, commands_app, Hc1, Hc2, Hp1, Hp2.
Qed.

(** ** Paths in the command lines *)




(** ** The further theorems at sample inputs *)

Lemma system_check_cleans_output_dir_witness :
  let r := system_check sample_env "dist.win32" build_world in
  result r = Return ".gitversion"
  /\ ERmtree "dist.win32" ∈ trace r
  /\ files (world r) !! "dist.win32\EDMC.exe" = None
  /\ dirs (world r) !! "dist.win32" = None.
Proof.
  destruct (system_check_cleans_output_dir sample_env "dist.win32"
              build_world) as (Hres & Hrm & Hgone).
  - exact sample_env_supported.
  - apply Nat.ltb_lt. reflexivity.
  - reflexivity.
  - discriminate.
  - exists ["EDMC.exe"]. reflexivity.
  - split; [exact Hres|]. split; [exact Hrm|]. split.
    + apply (Hgone ["EDMC.exe"]). by repeat constructor.
    + apply (Hgone []). constructor.
Defined.

Lemma system_check_stamp_holds_hash_witness :
  let r := system_check sample_env "dist.win32" build_world in
  exists h,
    git_shorthash_from_head sample_env = Some h
    /\ result r = Return ".gitversion"
    /\ files (world r) !! ".gitversion" = Some h.
Proof.
  apply (system_check_stamp_holds_hash sample_env "dist.win32" build_world).
  - exact sample_env_supported.
  - right. right. split; [reflexivity|discriminate].
Defined.

Lemma system_check_second_run_removes_nothing_witness :
  let r1 := system_check sample_env "dist.win32" build_world in
  let r2 := system_check sample_env "dist.win32" (world r1) in
  exists h,
    result r2 = Return ".gitversion"
    /\ trace r2 = [EWrite ".gitversion" h; EPrint ("Git short hash: " +:+ h)]
    /\ dirs (world r2) = dirs (world r1).
Proof.
  apply (system_check_second_run_removes_nothing sample_env "dist.win32"
           build_world).
  exact sample_env_supported.
Defined.

Lemma generate_data_files_l10n_paths_witness :
  exists top entry fdevids plugins,
    manifest_of (generate_data_files "EDMC" ".gitversion" build_world)
    = [top; ("L10n", entry); fdevids; plugins]
    /\ forall p, p ∈ entry ->
         has_suffix ".strings" p
         /\ (has_prefix "L10n\" p \/ starts_with_sep p = true).
Proof.
  apply (generate_data_files_l10n_paths "EDMC" ".gitversion" build_world).
  reflexivity.
Defined.
